(** * Terraform provider for Atlassian: Jira handlers

    A shallow embedding of the handlers in
    [internal/provider/data_source_jira_status.go] (status data source,
    project resource, issue screen data source) and
    [internal/provider/data_source_workflow_scheme.go], and the properties
    of their remote-call behaviour and of the state they persist.

    Go values are modelled as follows: [string] is a byte string, [int]
    and [int64] are integers in [Z] (a 64-bit platform), a pointer is an
    [option] whose dereference panics on [None], a slice is a [list]
    whose indexing panics out of range.  A handler is a computation that
    emits the log lines and remote calls it performs, in order, and ends
    with its response or with a run-time panic. *)

From Stdlib Require Import String Ascii ZArith List Lia Bool DecimalString DecimalPos.
From ExtLib Require Import Structures.Monad.
Import ListNotations.
Import MonadNotation.

Local Open Scope string_scope.
Local Open Scope Z_scope.
Local Open Scope list_scope.
Local Open Scope monad_scope.

(** ** Go primitives used by the handlers *)

Module strconv.

(** The two failure kinds of [*strconv.NumError]. *)
Inductive NumError : Type :=
| ErrSyntax
| ErrRange.

Definition IntSize : Z := 64.
Definition maxUint64 : Z := 2 ^ 64 - 1.

Definition isDigit (c : ascii) : bool :=
  ((48 <=? nat_of_ascii c)%nat && (nat_of_ascii c <=? 57)%nat)%bool.

Definition digitVal (c : ascii) : Z := Z.of_nat (nat_of_ascii c) - 48.

(** The digit loop of [ParseUint(s, 10, 64)]: a byte that is no decimal
    digit is a syntax error; an overflow seen before that is a range
    error carrying the largest value. *)
Fixpoint parseDigits (s : string) (n : Z) : Z * option NumError :=
  match s with
  | EmptyString => (n, None)
  | String c rest =>
      if negb (isDigit c) then (0, Some ErrSyntax)
      else if maxUint64 / 10 + 1 <=? n then (maxUint64, Some ErrRange)
      else
        let n1 := n * 10 + digitVal c in
        if maxUint64 <? n1 then (maxUint64, Some ErrRange)
        else parseDigits rest n1
  end.

Definition ParseUint (s : string) : Z * option NumError :=
  match s with
  | EmptyString => (0, Some ErrSyntax)
  | _ => parseDigits s 0
  end.

(** [ParseInt(s, 10, 0)]: an optional sign, then [ParseUint]; the
    magnitude is clamped to the range of [int]. *)
Definition ParseInt (s : string) : Z * option NumError :=
  match s with
  | EmptyString => (0, Some ErrSyntax)
  | String c rest =>
      let neg := Ascii.eqb c "-" in
      let digits := if (Ascii.eqb c "+" || neg)%bool then rest else s in
      match ParseUint digits with
      | (_, Some ErrSyntax) => (0, Some ErrSyntax)
      | (un, _) =>
          let cutoff := 2 ^ (IntSize - 1) in
          if (negb neg && (cutoff <=? un))%bool then (cutoff - 1, Some ErrRange)
          else if (neg && (cutoff <? un))%bool then (- cutoff, Some ErrRange)
          else (if neg then - un else un, None)
      end
  end.

(** [strconv.Atoi]: its fast path for short inputs computes what
    [ParseInt(s, 10, 0)] computes. *)
Definition Atoi (s : string) : Z * option NumError := ParseInt s.

(** [strconv.Itoa], also what [fmt.Sprintf("%d", i)] prints. *)
Definition Itoa (i : Z) : string := NilZero.string_of_int (Z.to_int i).

End strconv.

Module strings.

(** [strings.Split(s, sep)] for a separator of one byte: the pieces
    between the occurrences of [sep], one more than there are
    occurrences. *)
Fixpoint Split (s : string) (sep : ascii) : list string :=
  match s with
  | EmptyString => [EmptyString]
  | String c rest =>
      if Ascii.eqb c sep then EmptyString :: Split rest sep
      else
        match Split rest sep with
        | piece :: pieces => String c piece :: pieces
        | [] => [String c EmptyString]
        end
  end.

End strings.

Module url.

(** [net/url.URL]; the handlers read [Path] only. *)
Record URL : Type := { Path : string }.

End url.

(** ** Values and diagnostics of the plugin framework *)

Module types.

(** [types.String]: null, unknown, or a known string. *)
Inductive String : Type :=
| StringNull
| StringUnknown
| StringValue (s : string).

(** [types.Int64]: null, unknown, or a known 64-bit integer. *)
Inductive Int64 : Type :=
| Int64Null
| Int64Unknown
| Int64Value (i : Z).

(** [ValueString] is the empty string for a null or unknown value. *)
Definition ValueString (v : String) : string :=
  match v with
  | StringValue s => s
  | _ => EmptyString
  end.

(** [ValueInt64] is zero for a null or unknown value. *)
Definition ValueInt64 (v : Int64) : Z :=
  match v with
  | Int64Value i => i
  | _ => 0
  end.

(** The [String()] method of [types.Int64]. *)
Definition Int64_String (v : Int64) : string :=
  match v with
  | Int64Unknown => "<unknown>"
  | Int64Null => "<null>"
  | Int64Value i => strconv.Itoa i
  end.

End types.

Module diag.

Inductive Severity : Type :=
| SeverityError
| SeverityWarning.

(** A diagnostic; [attribute] is the attribute path of an attribute
    diagnostic ([path.Root(name)] is modelled by [name]). *)
Record Diagnostic : Type := {
  severity : Severity;
  attribute : option string;
  summary : string;
  detail : string
}.

Definition Diagnostics : Type := list Diagnostic.

Definition NewErrorDiagnostic (summary detail : string) : Diagnostic :=
  {| severity := SeverityError; attribute := None;
     summary := summary; detail := detail |}.

Definition NewAttributeErrorDiagnostic (path summary detail : string) : Diagnostic :=
  {| severity := SeverityError; attribute := Some path;
     summary := summary; detail := detail |}.

Definition isError (d : Diagnostic) : bool :=
  match severity d with
  | SeverityError => true
  | SeverityWarning => false
  end.

Definition Equal (a b : Diagnostic) : bool :=
  (match severity a, severity b with
   | SeverityError, SeverityError | SeverityWarning, SeverityWarning => true
   | _, _ => false
   end
   && match attribute a, attribute b with
      | Some p, Some q => String.eqb p q
      | None, None => true
      | _, _ => false
      end
   && String.eqb (summary a) (summary b)
   && String.eqb (detail a) (detail b))%bool.

Definition Contains (diags : Diagnostics) (d : Diagnostic) : bool :=
  existsb (Equal d) diags.

Definition HasError (diags : Diagnostics) : bool := existsb isError diags.

(** [Append] adds the diagnostics that are not already present. *)
Fixpoint Append (diags : Diagnostics) (more : list Diagnostic) : Diagnostics :=
  match more with
  | [] => diags
  | d :: rest =>
      if Contains diags d then Append diags rest
      else Append (diags ++ [d]) rest
  end.

Definition AddError (diags : Diagnostics) (summary detail : string) : Diagnostics :=
  Append diags [NewErrorDiagnostic summary detail].

Definition AddAttributeError (diags : Diagnostics) (path summary detail : string)
  : Diagnostics :=
  Append diags [NewAttributeErrorDiagnostic path summary detail].

End diag.

Module tfsdk.

(** The configuration, plan or state of a request: [Get] decodes it
    into the handler's record and reports the diagnostics of the
    decoding. *)
Record Data (M : Type) : Type := { Get : M * diag.Diagnostics }.
Arguments Get {M} _.

(** The response of a lifecycle operation: the diagnostics collected
    and, once [State.Set] has run, the record it stored. *)
Record Response (M : Type) : Type := {
  Diagnostics : diag.Diagnostics;
  State : option M
}.
Arguments Diagnostics {M} _.
Arguments State {M} _.

Definition newResponse {M : Type} : Response M :=
  {| Diagnostics := []; State := None |}.

Definition Diagnostics_Append {M} (resp : Response M) (more : diag.Diagnostics)
  : Response M :=
  {| Diagnostics := diag.Append (Diagnostics resp) more; State := State resp |}.

Definition Diagnostics_AddError {M} (resp : Response M) (summary detail : string)
  : Response M :=
  {| Diagnostics := diag.AddError (Diagnostics resp) summary detail;
     State := State resp |}.

Definition Diagnostics_AddAttributeError {M} (resp : Response M)
  (path summary detail : string) : Response M :=
  {| Diagnostics := diag.AddAttributeError (Diagnostics resp) path summary detail;
     State := State resp |}.

(** [resp.State.Set(ctx, &m)]; storing a record of the schema's own
    type reports no diagnostic. *)
Definition State_Set {M} (resp : Response M) (m : M) : Response M :=
  Diagnostics_Append {| Diagnostics := Diagnostics resp; State := Some m |} [].

End tfsdk.

(** ** Payloads of the remote API client

    The structs of the client library's [models] package, with the
    fields the handlers read or write.  A field of pointer type is an
    [option]. *)

Module models.

(** [ResponseScheme]: [Bytes] is the raw body, as [Bytes.String()]
    returns it. *)
Record ResponseScheme : Type := { Bytes : string }.

Record WorkflowStatusDetailScheme : Type := {
  status_Name : string;
  status_Description : string;
  StatusCategory : string
}.

Record WorkflowSchemeScheme : Type := {
  workflowScheme_Name : string;
  workflowScheme_Description : string
}.

Record ScreenParamsScheme : Type := { IDs : list Z }.

Record ScreenScheme : Type := {
  screen_Name : string;
  screen_Description : string
}.

Record ScreenSearchPageScheme : Type := {
  screens_Values : list (option ScreenScheme)
}.

Record ProjectPayloadScheme : Type := {
  payload_Key : string;
  payload_Name : string;
  payload_Description : string;
  payload_AvatarID : Z;
  payload_FieldConfigurationScheme : Z;
  payload_IssueTypeScheme : Z;
  payload_IssueTypeScreenScheme : Z;
  payload_LeadAccountID : string;
  payload_ProjectTypeKey : string;
  payload_URL : string;
  payload_WorkflowScheme : Z
}.

Record NewProjectCreatedScheme : Type := { created_ID : Z }.

Record ProjectUpdateScheme : Type := {
  update_Key : string;
  update_Name : string;
  update_Description : string;
  update_AvatarID : Z;
  update_ProjectTypeKey : string;
  update_URL : string
}.

Record AvatarURLScheme : Type := { One6X16 : string }.

Record UserScheme : Type := { AccountID : string }.

Record ProjectScheme : Type := {
  ID : string;
  Key : string;
  Name : string;
  Description : string;
  AvatarUrls : option AvatarURLScheme;
  Lead : option UserScheme;
  ProjectTypeKey : string;
  URL : string
}.

Record IssueTypeSchemeScheme : Type := {
  scheme_ID : string;
  scheme_Name : string
}.

(** An association of an issue type scheme with the projects that use
    it; [ProjectIds] is a slice of project ids. *)
Record IssueTypeSchemeProjectsScheme : Type := {
  IssueTypeScheme : option IssueTypeSchemeScheme;
  ProjectIds : list string
}.

Record IssueTypeSchemeProjectPageScheme : Type := {
  Values : list (option IssueTypeSchemeProjectsScheme)
}.

End models.

(** ** The remote API client *)

Module jira.

(** A Go [error], by its message. *)
Definition error : Type := string.

(** What a client method returns: the payload, the response and the
    error, each of which may be nil. *)
Definition Returns (T : Type) : Type :=
  (T * option models.ResponseScheme * option error)%type.

(** The client, as the answers of the remote system to each method
    the handlers use.  No handler calls a method twice. *)
Record Client : Type := {
  Workflow_Status_Gets :
    list string -> list string ->
    Returns (list (option models.WorkflowStatusDetailScheme));
  Workflow_Scheme_Get :
    Z -> bool -> Returns (option models.WorkflowSchemeScheme);
  Screen_Gets :
    models.ScreenParamsScheme -> Z -> Z ->
    Returns (option models.ScreenSearchPageScheme);
  Project_Create :
    models.ProjectPayloadScheme -> Returns (option models.NewProjectCreatedScheme);
  Project_Get :
    string -> list string -> Returns (option models.ProjectScheme);
  Project_Update :
    string -> models.ProjectUpdateScheme -> Returns (option models.ProjectScheme);
  Project_Delete :
    string -> bool -> option models.ResponseScheme * option error;
  Issue_Type_Scheme_Projects :
    list Z -> Z -> Z -> Returns (option models.IssueTypeSchemeProjectPageScheme);
  Issue_Type_Scheme_Assign :
    string -> string -> option models.ResponseScheme * option error
}.

(** A remote call, with its arguments. *)
Inductive Call : Type :=
| CallWorkflowStatusGets (ids expand : list string)
| CallWorkflowSchemeGet (schemeId : Z) (returnDraftIfExists : bool)
| CallScreenGets (options : models.ScreenParamsScheme) (startAt maxResults : Z)
| CallProjectCreate (payload : models.ProjectPayloadScheme)
| CallProjectGet (projectKeyOrID : string) (expand : list string)
| CallProjectUpdate (projectKeyOrID : string) (payload : models.ProjectUpdateScheme)
| CallProjectDelete (projectKeyOrID : string) (flag : bool)
| CallIssueTypeSchemeProjects (projectIDs : list Z) (startAt maxResults : Z)
| CallIssueTypeSchemeAssign (issueTypeSchemeID projectID : string).

End jira.

(** ** Handler computations *)

Inductive LogLevel : Type :=
| Debug
| Info.

(** What a handler does that can be observed from outside. *)
Inductive Event : Type :=
| Remote (c : jira.Call)
| Log (level : LogLevel) (msg : string).

(** The run-time panics a handler can raise. *)
Inductive Panic : Type :=
| IndexOutOfRange (index : nat) (length : nat)
| NilPointerDereference.

Inductive Outcome (A : Type) : Type :=
| Returned (a : A)
| Panicked (p : Panic).
Arguments Returned {A} _.
Arguments Panicked {A} _.

(** A computation: the events emitted, oldest first, and how it ended. *)
Definition Exec (A : Type) : Type := (list Event * Outcome A)%type.

Definition Exec_ret {A} (a : A) : Exec A := ([], Returned a).

Definition Exec_bind {A B} (m : Exec A) (k : A -> Exec B) : Exec B :=
  match m with
  | (evs, Returned a) => let (evs', out) := k a in (evs ++ evs', out)
  | (evs, Panicked p) => (evs, Panicked p)
  end.

#[export] Instance Monad_Exec : Monad Exec :=
  {| ret := @Exec_ret; bind := @Exec_bind |}.

Definition emit (e : Event) : Exec unit := ([e], Returned tt).

Definition panic {A} (p : Panic) : Exec A := ([], Panicked p).

(** [*p] *)
Definition deref {A} (p : option A) : Exec A :=
  match p with
  | Some a => ret a
  | None => panic NilPointerDereference
  end.

(** [s[i]] *)
Definition index {A} (s : list A) (i : nat) : Exec A :=
  match nth_error s i with
  | Some a => ret a
  | None => panic (IndexOutOfRange i (List.length s))
  end.

Definition events {A} (m : Exec A) : list Event := fst m.

Definition outcome {A} (m : Exec A) : Outcome A := snd m.

(** The remote calls among the events, in order. *)
Fixpoint calls (evs : list Event) : list jira.Call :=
  match evs with
  | [] => []
  | Remote c :: rest => c :: calls rest
  | Log _ _ :: rest => calls rest
  end.


Module tflog.

(** [tflog.Debug(ctx, msg, fields...)]; the additional fields are not
    part of the model. *)
Definition Debug (msg : string) : Exec unit := emit (Log Debug msg).

Definition Info (msg : string) : Exec unit := emit (Log Info msg).

End tflog.

(** The line feed of the format strings. *)
Definition LF : string := String (ascii_of_nat 10) EmptyString.

(** The double quote of the message strings. *)
Definition DQ : string := String (ascii_of_nat 34) EmptyString.

(** The summary and the detail of the validation error of the three
    data sources: the attribute name [id] stands between double quotes. *)
Definition idParseSummary : string :=
  "Unable to parse value of " ++ DQ ++ "id" ++ DQ ++ " attribute.".

Definition idParseDetail : string :=
  "Value of " ++ DQ ++ "id" ++ DQ ++ " attribute can only be a numeric string.".

(** The methods of the client as the handlers call them: the call is
    emitted, then the remote system's answer is returned. *)
Module api.

Definition remote {A} (c : jira.Call) (answer : A) : Exec A :=
  emit (Remote c) ;; ret answer.

Definition Workflow_Status_Gets (j : jira.Client) (ids expand : list string) :=
  remote (jira.CallWorkflowStatusGets ids expand)
         (jira.Workflow_Status_Gets j ids expand).

Definition Workflow_Scheme_Get (j : jira.Client) (schemeId : Z) (draft : bool) :=
  remote (jira.CallWorkflowSchemeGet schemeId draft)
         (jira.Workflow_Scheme_Get j schemeId draft).

Definition Screen_Gets (j : jira.Client) (options : models.ScreenParamsScheme)
  (startAt maxResults : Z) :=
  remote (jira.CallScreenGets options startAt maxResults)
         (jira.Screen_Gets j options startAt maxResults).

Definition Project_Create (j : jira.Client) (payload : models.ProjectPayloadScheme) :=
  remote (jira.CallProjectCreate payload) (jira.Project_Create j payload).

Definition Project_Get (j : jira.Client) (projectKeyOrID : string)
  (expand : list string) :=
  remote (jira.CallProjectGet projectKeyOrID expand)
         (jira.Project_Get j projectKeyOrID expand).

Definition Project_Update (j : jira.Client) (projectKeyOrID : string)
  (payload : models.ProjectUpdateScheme) :=
  remote (jira.CallProjectUpdate projectKeyOrID payload)
         (jira.Project_Update j projectKeyOrID payload).

Definition Project_Delete (j : jira.Client) (projectKeyOrID : string) (flag : bool) :=
  remote (jira.CallProjectDelete projectKeyOrID flag)
         (jira.Project_Delete j projectKeyOrID flag).

Definition Issue_Type_Scheme_Projects (j : jira.Client) (projectIDs : list Z)
  (startAt maxResults : Z) :=
  remote (jira.CallIssueTypeSchemeProjects projectIDs startAt maxResults)
         (jira.Issue_Type_Scheme_Projects j projectIDs startAt maxResults).

Definition Issue_Type_Scheme_Assign (j : jira.Client)
  (issueTypeSchemeID projectID : string) :=
  remote (jira.CallIssueTypeSchemeAssign issueTypeSchemeID projectID)
         (jira.Issue_Type_Scheme_Assign j issueTypeSchemeID projectID).

End api.

(** The requests of the framework, by the data each carries. *)
Module datasource.

Record ReadRequest (M : Type) : Type := { Config : tfsdk.Data M }.
Arguments Config {M} _.

End datasource.

Module resource.

Record CreateRequest (M : Type) : Type := { create_Plan : tfsdk.Data M }.
Arguments create_Plan {M} _.

Record ReadRequest (M : Type) : Type := { read_State : tfsdk.Data M }.
Arguments read_State {M} _.

Record UpdateRequest (M : Type) : Type := {
  update_Plan : tfsdk.Data M;
  update_State : tfsdk.Data M
}.
Arguments update_Plan {M} _.
Arguments update_State {M} _.

Record DeleteRequest (M : Type) : Type := { delete_State : tfsdk.Data M }.
Arguments delete_State {M} _.

End resource.

(** ** Schemas *)

Module schema.

Inductive AttributeType : Type :=
| StringAttribute
| Int64Attribute.

(** The plan modifiers and validators the schemas use. *)
Inductive PlanModifier : Type :=
| UseStateForUnknown
| DefaultValue (value : string).

Inductive Validator : Type :=
| LengthAtMost (max : Z).

Record Attribute : Type := {
  type : AttributeType;
  MarkdownDescription : string;
  Required : bool;
  Optional : bool;
  Computed : bool;
  PlanModifiers : list PlanModifier;
  Validators : list Validator
}.

(** A schema; the map of its attributes is the list of its entries in
    the order of the source. *)
Record Schema : Type := {
  Version : Z;
  schema_MarkdownDescription : string;
  Attributes : list (string * Attribute)
}.

Definition required (type : AttributeType) (description : string) : Attribute :=
  {| type := type; MarkdownDescription := description;
     Required := true; Optional := false; Computed := false;
     PlanModifiers := []; Validators := [] |}.

Definition computed (type : AttributeType) (description : string) : Attribute :=
  {| type := type; MarkdownDescription := description;
     Required := false; Optional := false; Computed := true;
     PlanModifiers := []; Validators := [] |}.

Definition optional (type : AttributeType) (description : string) : Attribute :=
  {| type := type; MarkdownDescription := description;
     Required := false; Optional := true; Computed := false;
     PlanModifiers := []; Validators := [] |}.

Definition optionalComputed (type : AttributeType) (description : string)
  (modifiers : list PlanModifier) : Attribute :=
  {| type := type; MarkdownDescription := description;
     Required := false; Optional := true; Computed := true;
     PlanModifiers := modifiers; Validators := [] |}.

(** The names of the attributes with their types. *)
Definition signature (s : Schema) : list (string * AttributeType) :=
  map (fun entry => (fst entry, type (snd entry))) (Attributes s).

(** What the framework asks of an attribute: it is required, optional or
    computed, and a required attribute is neither optional nor
    computed. *)
Definition wellFormed (a : Attribute) : bool :=
  ((Required a || Optional a || Computed a)
   && negb (Required a && (Optional a || Computed a)))%bool.

End schema.

(** ** Status data source *)

Module jiraStatusDataSourceModel.

Record t : Type := {
  ID : types.String;
  Name : types.String;
  Description : types.String;
  Category : types.String
}.

(** The [tfsdk] tags of the fields, with the types of the fields. *)
Definition tags : list (string * schema.AttributeType) :=
  [("id", schema.StringAttribute); ("name", schema.StringAttribute);
   ("description", schema.StringAttribute); ("category", schema.StringAttribute)].

End jiraStatusDataSourceModel.

Module jiraStatusDataSource.

Import jiraStatusDataSourceModel.

Definition Read (d : jira.Client) (req : datasource.ReadRequest t)
  : Exec (tfsdk.Response t) :=
  let resp := tfsdk.newResponse in
  tflog.Debug "Reading status data source" ;;
  let (newState, diags) := tfsdk.Get (datasource.Config req) in
  let resp := tfsdk.Diagnostics_Append resp diags in
  if diag.HasError (tfsdk.Diagnostics resp) then ret resp
  else
    tflog.Debug "Loaded status config" ;;
    let statusId := types.ValueString (ID newState) in
    if String.eqb statusId EmptyString then
      ret (tfsdk.Diagnostics_AddAttributeError resp "id"
             idParseSummary idParseDetail)
    else
      '(status, res, err) <- api.Workflow_Status_Gets d [statusId] [] ;;
      match err with
      | Some err =>
          let resBody :=
            match res with
            | Some res => models.Bytes res
            | None => EmptyString
            end in
          ret (tfsdk.Diagnostics_AddError resp "Client Error"
                 ("Unable to get Jira status, got error: " ++ err ++ LF ++ resBody))
      | None =>
          tflog.Debug "Retrieve status from API state" ;;
          status0 <- index status 0 ;;
          status0 <- deref status0 ;;
          let newState :=
            {| ID := ID newState;
               Name := types.StringValue (models.status_Name status0);
               Description := types.StringValue (models.status_Description status0);
               Category := types.StringValue (models.StatusCategory status0) |} in
          tflog.Debug "Storing status info into the state" ;;
          ret (tfsdk.State_Set resp newState)
      end.

Definition Metadata (ProviderTypeName : string) : string :=
  ProviderTypeName ++ "_jira_status".

Definition Schema : schema.Schema :=
  {| schema.Version := 0;
     schema.schema_MarkdownDescription := "Jira Status Data Source";
     schema.Attributes :=
       [("id", schema.required schema.StringAttribute "The ID of the status.");
        ("name",
         schema.computed schema.StringAttribute
           ("The name of the status." ++ "The name must be unique."
              ++ "The maximum length is 255 characters."));
        ("description",
         schema.computed schema.StringAttribute
           ("The description of the status."
              ++ "The maximum length is 255 characters."));
        ("category",
         schema.computed schema.StringAttribute "The category of the status.")] |}.

End jiraStatusDataSource.

(** ** Workflow scheme data source *)

Module jiraWorkflowSchemeDataSourceModel.

Record t : Type := {
  ID : types.String;
  Name : types.String;
  Description : types.String
}.

(** The [tfsdk] tags of the fields, with the types of the fields. *)
Definition tags : list (string * schema.AttributeType) :=
  [("id", schema.StringAttribute); ("name", schema.StringAttribute);
   ("description", schema.StringAttribute)].

End jiraWorkflowSchemeDataSourceModel.

Module jiraWorkflowSchemeDataSource.

Import jiraWorkflowSchemeDataSourceModel.

Definition Read (d : jira.Client) (req : datasource.ReadRequest t)
  : Exec (tfsdk.Response t) :=
  let resp := tfsdk.newResponse in
  tflog.Debug "Reading workflow scheme data source" ;;
  let (newState, diags) := tfsdk.Get (datasource.Config req) in
  let resp := tfsdk.Diagnostics_Append resp diags in
  if diag.HasError (tfsdk.Diagnostics resp) then ret resp
  else
    tflog.Debug "Loaded status config" ;;
    let (workflowSchemeId, err) := strconv.Atoi (types.ValueString (ID newState)) in
    match err with
    | Some _ =>
        ret (tfsdk.Diagnostics_AddAttributeError resp "id"
               idParseSummary idParseDetail)
    | None =>
        '(workflowScheme, res, err) <-
          api.Workflow_Scheme_Get d workflowSchemeId false ;;
        match err with
        | Some err =>
            let resBody :=
              match res with
              | Some res => models.Bytes res
              | None => EmptyString
              end in
            ret (tfsdk.Diagnostics_AddError resp "Client Error"
                   ("Unable to get Jira workflow scheme, got error: "
                      ++ err ++ LF ++ resBody))
        | None =>
            tflog.Debug "Retrieve status from API state" ;;
            workflowScheme <- deref workflowScheme ;;
            let newState :=
              {| ID := ID newState;
                 Name :=
                   types.StringValue (models.workflowScheme_Name workflowScheme);
                 Description :=
                   types.StringValue
                     (models.workflowScheme_Description workflowScheme) |} in
            tflog.Debug "Storing workflow scheme info into the state" ;;
            ret (tfsdk.State_Set resp newState)
        end
    end.

Definition Metadata (ProviderTypeName : string) : string :=
  ProviderTypeName ++ "_jira_workflow_scheme".

Definition Schema : schema.Schema :=
  {| schema.Version := 0;
     schema.schema_MarkdownDescription := "Jira Workflow Scheme Data Source";
     schema.Attributes :=
       [("id",
         schema.required schema.StringAttribute "The ID of the workflow scheme.");
        ("name",
         schema.computed schema.StringAttribute "The name of the workflow scheme.");
        ("description",
         schema.computed schema.StringAttribute
           "The description of the workflow scheme.")] |}.

End jiraWorkflowSchemeDataSource.

(** ** Issue screen data source *)

Module jiraIssueScreenDataSourceModel.

Record t : Type := {
  ID : types.String;
  Name : types.String;
  Description : types.String
}.

(** The [tfsdk] tags of the fields, with the types of the fields. *)
Definition tags : list (string * schema.AttributeType) :=
  [("id", schema.StringAttribute); ("name", schema.StringAttribute);
   ("description", schema.StringAttribute)].

End jiraIssueScreenDataSourceModel.

Module jiraIssueScreenDataSource.

Import jiraIssueScreenDataSourceModel.

Definition Read (d : jira.Client) (req : datasource.ReadRequest t)
  : Exec (tfsdk.Response t) :=
  let resp := tfsdk.newResponse in
  tflog.Debug "Reading issue screen data source" ;;
  let (newState, diags) := tfsdk.Get (datasource.Config req) in
  let resp := tfsdk.Diagnostics_Append resp diags in
  if diag.HasError (tfsdk.Diagnostics resp) then ret resp
  else
    tflog.Debug "Loaded issue screen config" ;;
    let (issueScreenId, err) := strconv.Atoi (types.ValueString (ID newState)) in
    match err with
    | Some _ =>
        ret (tfsdk.Diagnostics_AddAttributeError resp "id"
               idParseSummary idParseDetail)
    | None =>
        let screenParamsScheme := {| models.IDs := [issueScreenId] |} in
        '(issueScreen, res, err) <- api.Screen_Gets d screenParamsScheme 0 50 ;;
        match err with
        | Some err =>
            let resBody :=
              match res with
              | Some res => models.Bytes res
              | None => EmptyString
              end in
            ret (tfsdk.Diagnostics_AddError resp "Client Error"
                   ("Unable to get issue screen, got error: "
                      ++ err ++ LF ++ resBody))
        | None =>
            tflog.Debug "Retrieve issue screen from API state" ;;
            issueScreen <- deref issueScreen ;;
            screen0 <- index (models.screens_Values issueScreen) 0 ;;
            screen0 <- deref screen0 ;;
            let newState :=
              {| ID := ID newState;
                 Name := types.StringValue (models.screen_Name screen0);
                 Description :=
                   types.StringValue (models.screen_Description screen0) |} in
            tflog.Debug "Storing issue screen info into the state" ;;
            ret (tfsdk.State_Set resp newState)
        end
    end.

Definition Metadata (ProviderTypeName : string) : string :=
  ProviderTypeName ++ "_jira_issue_screen".

Definition Schema : schema.Schema :=
  {| schema.Version := 0;
     schema.schema_MarkdownDescription := "Jira Issue Screen Data Source";
     schema.Attributes :=
       [("id", schema.required schema.StringAttribute "The ID of the issue screen.");
        ("name",
         schema.computed schema.StringAttribute
           ("The name of the screen." ++ "The name must be unique."
              ++ "The maximum length is 255 characters."));
        ("description",
         schema.computed schema.StringAttribute
           ("The description of the screen."
              ++ "The maximum length is 255 characters."))] |}.

End jiraIssueScreenDataSource.

(** ** Project resource *)

(** The conversions [int(x)] and [int64(x)] between 64-bit integer
    types, on an arbitrary integer: wrap-around at 64 bits. *)
Definition int64 (i : Z) : Z := (i + 2 ^ 63) mod 2 ^ 64 - 2 ^ 63.

Definition int (i : Z) : Z := int64 i.

Module jiraProjectResourceModel.

Record t : Type := {
  ID : types.String;
  Key : types.String;
  Name : types.String;
  Description : types.String;
  AvatarId : types.Int64;
  FieldConfigurationScheme : types.Int64;
  IssueTypeScheme : types.Int64;
  IssueTypeScreenScheme : types.Int64;
  WorkflowScheme : types.Int64;
  LeadAccountId : types.String;
  ProjectTypeKey : types.String;
  URL : types.String
}.

(** Assignments to one field. *)
Definition set_ID (v : types.String) (m : t) : t :=
  {| ID := v; Key := Key m; Name := Name m; Description := Description m;
     AvatarId := AvatarId m;
     FieldConfigurationScheme := FieldConfigurationScheme m;
     IssueTypeScheme := IssueTypeScheme m;
     IssueTypeScreenScheme := IssueTypeScreenScheme m;
     WorkflowScheme := WorkflowScheme m; LeadAccountId := LeadAccountId m;
     ProjectTypeKey := ProjectTypeKey m; URL := URL m |}.

Definition set_Key (v : types.String) (m : t) : t :=
  {| ID := ID m; Key := v; Name := Name m; Description := Description m;
     AvatarId := AvatarId m;
     FieldConfigurationScheme := FieldConfigurationScheme m;
     IssueTypeScheme := IssueTypeScheme m;
     IssueTypeScreenScheme := IssueTypeScreenScheme m;
     WorkflowScheme := WorkflowScheme m; LeadAccountId := LeadAccountId m;
     ProjectTypeKey := ProjectTypeKey m; URL := URL m |}.

Definition set_Name (v : types.String) (m : t) : t :=
  {| ID := ID m; Key := Key m; Name := v; Description := Description m;
     AvatarId := AvatarId m;
     FieldConfigurationScheme := FieldConfigurationScheme m;
     IssueTypeScheme := IssueTypeScheme m;
     IssueTypeScreenScheme := IssueTypeScreenScheme m;
     WorkflowScheme := WorkflowScheme m; LeadAccountId := LeadAccountId m;
     ProjectTypeKey := ProjectTypeKey m; URL := URL m |}.

Definition set_Description (v : types.String) (m : t) : t :=
  {| ID := ID m; Key := Key m; Name := Name m; Description := v;
     AvatarId := AvatarId m;
     FieldConfigurationScheme := FieldConfigurationScheme m;
     IssueTypeScheme := IssueTypeScheme m;
     IssueTypeScreenScheme := IssueTypeScreenScheme m;
     WorkflowScheme := WorkflowScheme m; LeadAccountId := LeadAccountId m;
     ProjectTypeKey := ProjectTypeKey m; URL := URL m |}.

Definition set_AvatarId (v : types.Int64) (m : t) : t :=
  {| ID := ID m; Key := Key m; Name := Name m; Description := Description m;
     AvatarId := v;
     FieldConfigurationScheme := FieldConfigurationScheme m;
     IssueTypeScheme := IssueTypeScheme m;
     IssueTypeScreenScheme := IssueTypeScreenScheme m;
     WorkflowScheme := WorkflowScheme m; LeadAccountId := LeadAccountId m;
     ProjectTypeKey := ProjectTypeKey m; URL := URL m |}.

Definition set_IssueTypeScheme (v : types.Int64) (m : t) : t :=
  {| ID := ID m; Key := Key m; Name := Name m; Description := Description m;
     AvatarId := AvatarId m;
     FieldConfigurationScheme := FieldConfigurationScheme m;
     IssueTypeScheme := v;
     IssueTypeScreenScheme := IssueTypeScreenScheme m;
     WorkflowScheme := WorkflowScheme m; LeadAccountId := LeadAccountId m;
     ProjectTypeKey := ProjectTypeKey m; URL := URL m |}.

Definition set_LeadAccountId (v : types.String) (m : t) : t :=
  {| ID := ID m; Key := Key m; Name := Name m; Description := Description m;
     AvatarId := AvatarId m;
     FieldConfigurationScheme := FieldConfigurationScheme m;
     IssueTypeScheme := IssueTypeScheme m;
     IssueTypeScreenScheme := IssueTypeScreenScheme m;
     WorkflowScheme := WorkflowScheme m; LeadAccountId := v;
     ProjectTypeKey := ProjectTypeKey m; URL := URL m |}.

Definition set_ProjectTypeKey (v : types.String) (m : t) : t :=
  {| ID := ID m; Key := Key m; Name := Name m; Description := Description m;
     AvatarId := AvatarId m;
     FieldConfigurationScheme := FieldConfigurationScheme m;
     IssueTypeScheme := IssueTypeScheme m;
     IssueTypeScreenScheme := IssueTypeScreenScheme m;
     WorkflowScheme := WorkflowScheme m; LeadAccountId := LeadAccountId m;
     ProjectTypeKey := v; URL := URL m |}.

Definition set_URL (v : types.String) (m : t) : t :=
  {| ID := ID m; Key := Key m; Name := Name m; Description := Description m;
     AvatarId := AvatarId m;
     FieldConfigurationScheme := FieldConfigurationScheme m;
     IssueTypeScheme := IssueTypeScheme m;
     IssueTypeScreenScheme := IssueTypeScreenScheme m;
     WorkflowScheme := WorkflowScheme m; LeadAccountId := LeadAccountId m;
     ProjectTypeKey := ProjectTypeKey m; URL := v |}.

(** The [tfsdk] tags of the fields, with the types of the fields. *)
Definition tags : list (string * schema.AttributeType) :=
  [("id", schema.StringAttribute); ("key", schema.StringAttribute);
   ("name", schema.StringAttribute); ("description", schema.StringAttribute);
   ("avatar_id", schema.Int64Attribute);
   ("field_configuration_scheme", schema.Int64Attribute);
   ("issue_type_scheme", schema.Int64Attribute);
   ("issue_type_screen_scheme", schema.Int64Attribute);
   ("workflow_scheme", schema.Int64Attribute);
   ("lead_account_id", schema.StringAttribute);
   ("project_type_key", schema.StringAttribute);
   ("url", schema.StringAttribute)].

End jiraProjectResourceModel.

Module jiraProjectResource.

Import jiraProjectResourceModel.

Definition Create (r : jira.Client) (req : resource.CreateRequest t)
  : Exec (tfsdk.Response t) :=
  let resp := tfsdk.newResponse in
  tflog.Debug "Creating project" ;;
  let (plan, diags) := tfsdk.Get (resource.create_Plan req) in
  let resp := tfsdk.Diagnostics_Append resp diags in
  if diag.HasError (tfsdk.Diagnostics resp) then ret resp
  else
    tflog.Debug "Loaded project plan" ;;
    let projectPayload :=
      {| models.payload_Key := types.ValueString (Key plan);
         models.payload_Name := types.ValueString (Name plan);
         models.payload_Description := types.ValueString (Description plan);
         models.payload_AvatarID := int (types.ValueInt64 (AvatarId plan));
         models.payload_FieldConfigurationScheme :=
           int (types.ValueInt64 (FieldConfigurationScheme plan));
         models.payload_IssueTypeScheme :=
           int (types.ValueInt64 (IssueTypeScheme plan));
         models.payload_IssueTypeScreenScheme :=
           int (types.ValueInt64 (IssueTypeScreenScheme plan));
         models.payload_LeadAccountID := types.ValueString (LeadAccountId plan);
         models.payload_ProjectTypeKey := types.ValueString (ProjectTypeKey plan);
         models.payload_URL := types.ValueString (URL plan);
         models.payload_WorkflowScheme :=
           int (types.ValueInt64 (WorkflowScheme plan)) |} in
    '(returnedProject, res, err) <- api.Project_Create r projectPayload ;;
    match err with
    | Some err =>
        let resBody :=
          match res with
          | Some res => models.Bytes res
          | None => EmptyString
          end in
        ret (tfsdk.Diagnostics_AddError resp "Client Error"
               ("Unable to create project, got error: " ++ err ++ LF ++ resBody))
    | None =>
        tflog.Debug "Created project" ;;
        returnedProject <- deref returnedProject ;;
        let plan :=
          set_ID (types.StringValue
                    (strconv.Itoa (models.created_ID returnedProject))) plan in
        tflog.Debug "Storing project into the state" ;;
        ret (tfsdk.State_Set resp plan)
    end.

Definition Delete (r : jira.Client) (req : resource.DeleteRequest t)
  : Exec (tfsdk.Response t) :=
  let resp := tfsdk.newResponse in
  tflog.Debug "Deleting project resource" ;;
  let (state, diags) := tfsdk.Get (resource.delete_State req) in
  let resp := tfsdk.Diagnostics_Append resp diags in
  if diag.HasError (tfsdk.Diagnostics resp) then ret resp
  else
    tflog.Debug "Loaded project from state" ;;
    '(res, err) <- api.Project_Delete r (types.ValueString (ID state)) false ;;
    match err with
    | Some err =>
        res <- deref res ;;
        ret (tfsdk.Diagnostics_AddError resp "Client Error"
               ("Unable to delete project, got error: "
                  ++ err ++ LF ++ models.Bytes res))
    | None =>
        tflog.Debug "Deleted project from API state" ;;
        ret resp
    end.

(** The inner loop of [Read],
    [for issueTypeSchemeProjectId := range issueTypeScheme.ProjectIds]:
    with one iteration variable, [range] over a slice yields the
    indexes 0, 1, ... of its elements. *)
Fixpoint rangeProjectIds (issueTypeSchemeProjectId : Z) (ProjectIds : list string)
  (projectIDInt : Z) (scheme : models.IssueTypeSchemeScheme) (state : t) : t :=
  match ProjectIds with
  | [] => state
  | _ :: rest =>
      if issueTypeSchemeProjectId =? projectIDInt then
        let (issueTypeSchemeId, _) := strconv.Atoi (models.scheme_ID scheme) in
        set_IssueTypeScheme (types.Int64Value (int64 issueTypeSchemeId)) state
      else
        rangeProjectIds (issueTypeSchemeProjectId + 1) rest projectIDInt scheme state
  end.

(** The outer loop of [Read],
    [for _, issueTypeScheme := range issueTypesSchemes.Values]. *)
Fixpoint rangeValues (Values : list (option models.IssueTypeSchemeProjectsScheme))
  (projectIDInt : Z) (state : t) : Exec t :=
  match Values with
  | [] => ret state
  | issueTypeScheme :: rest =>
      issueTypeScheme <- deref issueTypeScheme ;;
      scheme <- deref (models.IssueTypeScheme issueTypeScheme) ;;
      tflog.Info (models.scheme_Name scheme) ;;
      let state :=
        rangeProjectIds 0 (models.ProjectIds issueTypeScheme)
          projectIDInt scheme state in
      rangeValues rest projectIDInt state
  end.

Section WithUrlParse.

(** [net/url.Parse], whose error the handlers discard: the URL, or
    nil when the string does not parse. *)
Variable url_Parse : string -> option url.URL.

(** The avatar id of a project: the tenth segment of the path of the
    16x16 avatar URL, as a number (zero when it is none). *)
Definition avatarIDOf (project : models.ProjectScheme) : Exec Z :=
  avatarUrls <- deref (models.AvatarUrls project) ;;
  avatarUrl <- deref (url_Parse (models.One6X16 avatarUrls)) ;;
  segment <- index (strings.Split (url.Path avatarUrl) "/") 9 ;;
  let (avatarID, _) := strconv.Atoi segment in
  ret avatarID.

Definition Read (r : jira.Client) (req : resource.ReadRequest t)
  : Exec (tfsdk.Response t) :=
  let resp := tfsdk.newResponse in
  tflog.Debug "Reading project resource" ;;
  let (state, diags) := tfsdk.Get (resource.read_State req) in
  let resp := tfsdk.Diagnostics_Append resp diags in
  if diag.HasError (tfsdk.Diagnostics resp) then ret resp
  else
    tflog.Debug "Loaded project from state" ;;
    let projectID := types.ValueString (ID state) in
    '(project, res, err) <- api.Project_Get r projectID [] ;;
    match err with
    | Some err =>
        res <- deref res ;;
        ret (tfsdk.Diagnostics_AddError resp "Client Error"
               ("Unable to get project, got error: "
                  ++ err ++ LF ++ models.Bytes res))
    | None =>
        tflog.Debug "Retrieved project from API state" ;;
        project <- deref project ;;
        let state := set_ID (types.StringValue (models.ID project)) state in
        let state := set_Key (types.StringValue (models.Key project)) state in
        let state := set_Name (types.StringValue (models.Name project)) state in
        let state :=
          set_Description (types.StringValue (models.Description project)) state in
        avatarID <- avatarIDOf project ;;
        let state := set_AvatarId (types.Int64Value (int64 avatarID)) state in
        lead <- deref (models.Lead project) ;;
        let state :=
          set_LeadAccountId (types.StringValue (models.AccountID lead)) state in
        let state :=
          set_ProjectTypeKey
            (types.StringValue (models.ProjectTypeKey project)) state in
        let state := set_URL (types.StringValue (models.URL project)) state in
        let (projectIDInt, _) := strconv.Atoi projectID in
        '(issueTypesSchemes, res, err) <-
          api.Issue_Type_Scheme_Projects r [projectIDInt] 0 1 ;;
        match err with
        | Some err =>
            res <- deref res ;;
            ret (tfsdk.Diagnostics_AddError resp "Client Error"
                   ("Unable to get issue type schemes for project, got error: "
                      ++ err ++ LF ++ models.Bytes res))
        | None =>
            issueTypesSchemes <- deref issueTypesSchemes ;;
            state <- rangeValues (models.Values issueTypesSchemes)
                       projectIDInt state ;;
            tflog.Debug "Storing issue type into the state" ;;
            ret (tfsdk.State_Set resp state)
        end
    end.

Definition Update (r : jira.Client) (req : resource.UpdateRequest t)
  : Exec (tfsdk.Response t) :=
  let resp := tfsdk.newResponse in
  tflog.Debug "Updating project resource" ;;
  let (plan, diags) := tfsdk.Get (resource.update_Plan req) in
  let resp := tfsdk.Diagnostics_Append resp diags in
  if diag.HasError (tfsdk.Diagnostics resp) then ret resp
  else
    tflog.Debug "Loaded project plan" ;;
    let (state, diags) := tfsdk.Get (resource.update_State req) in
    let resp := tfsdk.Diagnostics_Append resp diags in
    if diag.HasError (tfsdk.Diagnostics resp) then ret resp
    else
      tflog.Debug "Loaded project from state" ;;
      let projectID := types.ValueString (ID state) in
      let projectPayload :=
        {| models.update_Key := types.ValueString (Key plan);
           models.update_Name := types.ValueString (Name plan);
           models.update_Description := types.ValueString (Description plan);
           models.update_AvatarID := int (types.ValueInt64 (AvatarId plan));
           models.update_ProjectTypeKey :=
             types.ValueString (ProjectTypeKey plan);
           models.update_URL := types.ValueString (URL plan) |} in
      '(returnedProject, res, err) <-
        api.Project_Update r projectID projectPayload ;;
      match err with
      | Some err =>
          res <- deref res ;;
          ret (tfsdk.Diagnostics_AddError resp "Client Error"
                 ("Unable to update issue type, got error: "
                    ++ err ++ LF ++ models.Bytes res))
      | None =>
          tflog.Debug "Updated project in API state" ;;
          returnedProject <- deref returnedProject ;;
          '(response, err) <-
            api.Issue_Type_Scheme_Assign r
              (types.Int64_String (IssueTypeScheme plan))
              (models.ID returnedProject) ;;
          match err with
          | Some err =>
              response <- deref response ;;
              ret (tfsdk.Diagnostics_AddError resp "Client Error"
                     ("Unable to assign issue type scheme to project, got error: "
                        ++ err ++ LF ++ models.Bytes response))
          | None =>
              tflog.Debug "Assigned issue type scheme to project" ;;
              avatarID <- avatarIDOf returnedProject ;;
              lead <- deref (models.Lead returnedProject) ;;
              let result :=
                {| ID := types.StringValue (models.ID returnedProject);
                   Key := types.StringValue (models.Key returnedProject);
                   Name := types.StringValue (models.Name returnedProject);
                   Description :=
                     types.StringValue (models.Description returnedProject);
                   AvatarId := types.Int64Value (int64 avatarID);
                   FieldConfigurationScheme := types.Int64Null;
                   IssueTypeScheme :=
                     types.Int64Value (types.ValueInt64 (IssueTypeScheme plan));
                   IssueTypeScreenScheme := types.Int64Null;
                   WorkflowScheme := types.Int64Null;
                   LeadAccountId := types.StringValue (models.AccountID lead);
                   ProjectTypeKey :=
                     types.StringValue (models.ProjectTypeKey returnedProject);
                   URL := types.StringValue (models.URL returnedProject) |} in
              tflog.Debug "Storing issue type into the state" ;;
              ret (tfsdk.State_Set resp result)
          end
      end.

End WithUrlParse.

Definition Metadata (ProviderTypeName : string) : string :=
  ProviderTypeName ++ "_jira_project".

Definition Schema : schema.Schema :=
  {| schema.Version := 1;
     schema.schema_MarkdownDescription := "Jira Project Resource";
     schema.Attributes :=
       [("id",
         {| schema.type := schema.StringAttribute;
            schema.MarkdownDescription := "The ID of the project.";
            schema.Required := false; schema.Optional := false;
            schema.Computed := true;
            schema.PlanModifiers := [schema.UseStateForUnknown];
            schema.Validators := [] |});
        ("key",
         {| schema.type := schema.StringAttribute;
            schema.MarkdownDescription :=
              "Project keys must be unique and start with an uppercase letter followed by one or more uppercase alphanumeric characters. The maximum length is 10 characters.";
            schema.Required := true; schema.Optional := false;
            schema.Computed := false;
            schema.PlanModifiers := [];
            schema.Validators := [schema.LengthAtMost 10] |});
        ("name",
         schema.required schema.StringAttribute "The name of the project.");
        ("description",
         schema.optionalComputed schema.StringAttribute
           "A brief description of the project."
           [schema.DefaultValue EmptyString]);
        ("avatar_id",
         schema.optional schema.Int64Attribute
           "An integer value for the project's avatar.");
        ("field_configuration_scheme",
         schema.optional schema.Int64Attribute
           "The ID of the field configuration scheme for the project.");
        ("issue_type_scheme",
         schema.optional schema.Int64Attribute
           "The ID of the issue type scheme for the project. If you specify the issue type scheme you cannot specify the project template key.");
        ("issue_type_screen_scheme",
         schema.optional schema.Int64Attribute
           "The ID of the issue type screen scheme for the project. If you specify the issue type screen scheme you cannot specify the project template key.");
        ("workflow_scheme",
         schema.optional schema.Int64Attribute
           "The ID of the workflow scheme for the project. If you specify the workflow scheme you cannot specify the project template key.");
        ("lead_account_id",
         schema.optionalComputed schema.StringAttribute
           "The account ID of the project lead. Either lead or leadAccountId must be set when creating a project. Cannot be provided with lead."
           []);
        ("project_type_key",
         schema.optionalComputed schema.StringAttribute
           "The project type, which defines the application-specific feature set. If you don't specify the project template you have to specify the project type. Valid values: software, service_desk, business"
           []);
        ("url",
         schema.optionalComputed schema.StringAttribute
           "A link to information about this project, such as project documentation."
           [schema.DefaultValue EmptyString])] |}.

(** [ImportState] hands the request to the framework's
    [ImportStatePassthroughID] for the attribute [id]: the id of the
    import request is stored at [id], in a state that is null
    elsewhere. *)
Definition ImportState (req_ID : string) : tfsdk.Response t :=
  tfsdk.State_Set tfsdk.newResponse
    {| ID := types.StringValue req_ID;
       Key := types.StringNull;
       Name := types.StringNull;
       Description := types.StringNull;
       AvatarId := types.Int64Null;
       FieldConfigurationScheme := types.Int64Null;
       IssueTypeScheme := types.Int64Null;
       IssueTypeScreenScheme := types.Int64Null;
       WorkflowScheme := types.Int64Null;
       LeadAccountId := types.StringNull;
       ProjectTypeKey := types.StringNull;
       URL := types.StringNull |}.

End jiraProjectResource.

(** ** Fixtures for the examples *)

Module fixtures.

(** The text after the first [://] of a string, if any. *)
Fixpoint afterScheme (s : string) : option string :=
  match s with
  | String ":" (String "/" (String "/" rest)) => Some rest
  | String _ rest => afterScheme rest
  | EmptyString => None
  end.

(** The text from the first [/] on. *)
Fixpoint fromSlash (s : string) : string :=
  match s with
  | EmptyString => EmptyString
  | String c rest => if Ascii.eqb c "/" then s else fromSlash rest
  end.

(** The text before the first [?] or [#]. *)
Fixpoint beforeQuery (s : string) : string :=
  match s with
  | EmptyString => EmptyString
  | String c rest =>
      if (Ascii.eqb c "?" || Ascii.eqb c "#")%bool then EmptyString
      else String c (beforeQuery rest)
  end.

(** A parser for the URLs of the examples.  On an absolute URL
    [scheme://host/path?query] without escapes, [url.Parse] succeeds
    and [Path] is the text between the host and the query; this
    function computes that text, and fails without a scheme. *)
Definition url_Parse (rawURL : string) : option url.URL :=
  match afterScheme rawURL with
  | Some rest => Some {| url.Path := beforeQuery (fromSlash rest) |}
  | None => None
  end.

Definition avatarURL : string :=
  "https://example.atlassian.net/rest/api/3/universal_avatar/view/type/project/avatar/10425".

Definition avatarPath : string :=
  "/rest/api/3/universal_avatar/view/type/project/avatar/10425".

(** A remote project with id 10001. *)
Definition project : models.ProjectScheme :=
  {| models.ID := "10001"; models.Key := "TES"; models.Name := "Test Project";
     models.Description := "A project";
     models.AvatarUrls := Some {| models.One6X16 := avatarURL |};
     models.Lead := Some {| models.AccountID := "5b10a2844c20165700ede21g" |};
     models.ProjectTypeKey := "software";
     models.URL := "https://example.org" |}.

Definition success : option models.ResponseScheme :=
  Some {| models.Bytes := "{}" |}.

(** A remote system that answers every call, and lists the given
    associations of issue type schemes with projects. *)
Definition online (associations : list (option models.IssueTypeSchemeProjectsScheme))
  : jira.Client :=
  {| jira.Workflow_Status_Gets := fun _ _ =>
       ([Some {| models.status_Name := "Done";
                 models.status_Description := "Work is complete";
                 models.StatusCategory := "DONE" |}], success, None);
     jira.Workflow_Scheme_Get := fun _ _ =>
       (Some {| models.workflowScheme_Name := "Default";
                models.workflowScheme_Description := "Default scheme" |},
        success, None);
     jira.Screen_Gets := fun _ _ _ =>
       (Some {| models.screens_Values :=
                  [Some {| models.screen_Name := "Default Screen";
                           models.screen_Description := "Default fields" |}] |},
        success, None);
     jira.Project_Create := fun _ =>
       (Some {| models.created_ID := 10001 |}, success, None);
     jira.Project_Get := fun _ _ => (Some project, success, None);
     jira.Project_Update := fun _ _ => (Some project, success, None);
     jira.Project_Delete := fun _ _ => (success, None);
     jira.Issue_Type_Scheme_Projects := fun _ _ _ =>
       (Some {| models.Values := associations |}, success, None);
     jira.Issue_Type_Scheme_Assign := fun _ _ => (success, None) |}.

(** A remote system that cannot be reached: every call fails in the
    transport, so that no response accompanies the error. *)
Definition offline : jira.Client :=
  let err := Some "connection refused" in
  {| jira.Workflow_Status_Gets := fun _ _ => ([], None, err);
     jira.Workflow_Scheme_Get := fun _ _ => (None, None, err);
     jira.Screen_Gets := fun _ _ _ => (None, None, err);
     jira.Project_Create := fun _ => (None, None, err);
     jira.Project_Get := fun _ _ => (None, None, err);
     jira.Project_Update := fun _ _ => (None, None, err);
     jira.Project_Delete := fun _ _ => (None, err);
     jira.Issue_Type_Scheme_Projects := fun _ _ _ => (None, None, err);
     jira.Issue_Type_Scheme_Assign := fun _ _ => (None, err) |}.

(** A remote system that finds the id but lists no status and no
    screen for it. *)
Definition emptyPages : jira.Client :=
  {| jira.Workflow_Status_Gets := fun _ _ => ([], success, None);
     jira.Workflow_Scheme_Get := jira.Workflow_Scheme_Get (online []);
     jira.Screen_Gets := fun _ _ _ =>
       (Some {| models.screens_Values := [] |}, success, None);
     jira.Project_Create := jira.Project_Create (online []);
     jira.Project_Get := jira.Project_Get (online []);
     jira.Project_Update := jira.Project_Update (online []);
     jira.Project_Delete := jira.Project_Delete (online []);
     jira.Issue_Type_Scheme_Projects := jira.Issue_Type_Scheme_Projects (online []);
     jira.Issue_Type_Scheme_Assign := jira.Issue_Type_Scheme_Assign (online []) |}.

(** A remote system that answers every call and returns the given
    project. *)
Definition serving (project : models.ProjectScheme) : jira.Client :=
  {| jira.Workflow_Status_Gets := jira.Workflow_Status_Gets (online []);
     jira.Workflow_Scheme_Get := jira.Workflow_Scheme_Get (online []);
     jira.Screen_Gets := jira.Screen_Gets (online []);
     jira.Project_Create := jira.Project_Create (online []);
     jira.Project_Get := fun _ _ => (Some project, success, None);
     jira.Project_Update := fun _ _ => (Some project, success, None);
     jira.Project_Delete := jira.Project_Delete (online []);
     jira.Issue_Type_Scheme_Projects := jira.Issue_Type_Scheme_Projects (online []);
     jira.Issue_Type_Scheme_Assign := jira.Issue_Type_Scheme_Assign (online []) |}.

(** Project 10001 with another avatar, lead or none. *)
Definition projectWith (avatarUrls : option models.AvatarURLScheme)
  (lead : option models.UserScheme) : models.ProjectScheme :=
  {| models.ID := "10001"; models.Key := "TES"; models.Name := "Test Project";
     models.Description := "A project";
     models.AvatarUrls := avatarUrls;
     models.Lead := lead;
     models.ProjectTypeKey := "software";
     models.URL := "https://example.org" |}.

(** An avatar URL that names the avatar in its query: its path has two
    segments after the host. *)
Definition queryAvatarURL : string :=
  "https://example.atlassian.net/secure/projectavatar?pid=10001&avatarId=10425".

(** A remote system that answers every call but refuses, with a
    response, to assign an issue type scheme and to delete a project. *)
Definition refusing : jira.Client :=
  let refusal :=
    (Some {| models.Bytes := "not found" |}, Some "request failed. Status code: 404")
  in
  {| jira.Workflow_Status_Gets := jira.Workflow_Status_Gets (online []);
     jira.Workflow_Scheme_Get := jira.Workflow_Scheme_Get (online []);
     jira.Screen_Gets := jira.Screen_Gets (online []);
     jira.Project_Create := fun _ =>
       (None, Some {| models.Bytes := "key in use" |},
        Some "request failed. Status code: 400");
     jira.Project_Get := jira.Project_Get (online []);
     jira.Project_Update := jira.Project_Update (online []);
     jira.Project_Delete := fun _ _ => refusal;
     jira.Issue_Type_Scheme_Projects := jira.Issue_Type_Scheme_Projects (online []);
     jira.Issue_Type_Scheme_Assign := fun _ _ => refusal |}.

(** A remote system that reports success and returns no payload. *)
Definition silent : jira.Client :=
  {| jira.Workflow_Status_Gets := fun _ _ => ([], success, None);
     jira.Workflow_Scheme_Get := fun _ _ => (None, success, None);
     jira.Screen_Gets := fun _ _ _ => (None, success, None);
     jira.Project_Create := fun _ => (None, success, None);
     jira.Project_Get := fun _ _ => (None, success, None);
     jira.Project_Update := fun _ _ => (None, success, None);
     jira.Project_Delete := fun _ _ => (success, None);
     jira.Issue_Type_Scheme_Projects := fun _ _ _ => (None, success, None);
     jira.Issue_Type_Scheme_Assign := fun _ _ => (success, None) |}.

(** The association of issue type scheme 10005 with the given
    projects. *)
Definition association (projectIds : list string)
  : option models.IssueTypeSchemeProjectsScheme :=
  Some {| models.IssueTypeScheme :=
            Some {| models.scheme_ID := "10005";
                    models.scheme_Name := "Kanban Issue Type Scheme" |};
          models.ProjectIds := projectIds |}.

(** A project record as the plan of the scenario has it. *)
Definition plan : jiraProjectResourceModel.t :=
  {| jiraProjectResourceModel.ID := types.StringUnknown;
     jiraProjectResourceModel.Key := types.StringValue "TES";
     jiraProjectResourceModel.Name := types.StringValue "Test Project";
     jiraProjectResourceModel.Description := types.StringValue EmptyString;
     jiraProjectResourceModel.AvatarId := types.Int64Null;
     jiraProjectResourceModel.FieldConfigurationScheme := types.Int64Value 10010;
     jiraProjectResourceModel.IssueTypeScheme := types.Int64Null;
     jiraProjectResourceModel.IssueTypeScreenScheme := types.Int64Value 10011;
     jiraProjectResourceModel.WorkflowScheme := types.Int64Value 10012;
     jiraProjectResourceModel.LeadAccountId := types.StringUnknown;
     jiraProjectResourceModel.ProjectTypeKey := types.StringValue "software";
     jiraProjectResourceModel.URL := types.StringValue EmptyString |}.

(** The state of the project with the given id, whose issue type
    scheme was 10000. *)
Definition state (id : string) : jiraProjectResourceModel.t :=
  jiraProjectResourceModel.set_IssueTypeScheme (types.Int64Value 10000)
    (jiraProjectResourceModel.set_ID (types.StringValue id) plan).

(** The state an import of the given id stores. *)
Definition imported (id : string) : jiraProjectResourceModel.t :=
  match tfsdk.State (jiraProjectResource.ImportState id) with
  | Some m => m
  | None => plan
  end.

(** Data that decodes without a diagnostic. *)
Definition decoded {M : Type} (m : M) : tfsdk.Data M := {| tfsdk.Get := (m, []) |}.

(** Data whose decoding reports an error. *)
Definition undecoded {M : Type} (m : M) : tfsdk.Data M :=
  {| tfsdk.Get :=
       (m, [diag.NewErrorDiagnostic "Value Conversion Error"
              "An unexpected error was encountered trying to build a value."]) |}.

(** The configurations of the data sources: the id alone is set. *)
Definition statusConfig (id : string) : jiraStatusDataSourceModel.t :=
  {| jiraStatusDataSourceModel.ID := types.StringValue id;
     jiraStatusDataSourceModel.Name := types.StringNull;
     jiraStatusDataSourceModel.Description := types.StringNull;
     jiraStatusDataSourceModel.Category := types.StringNull |}.

Definition workflowSchemeConfig (id : string) : jiraWorkflowSchemeDataSourceModel.t :=
  {| jiraWorkflowSchemeDataSourceModel.ID := types.StringValue id;
     jiraWorkflowSchemeDataSourceModel.Name := types.StringNull;
     jiraWorkflowSchemeDataSourceModel.Description := types.StringNull |}.

Definition issueScreenConfig (id : string) : jiraIssueScreenDataSourceModel.t :=
  {| jiraIssueScreenDataSourceModel.ID := types.StringValue id;
     jiraIssueScreenDataSourceModel.Name := types.StringNull;
     jiraIssueScreenDataSourceModel.Description := types.StringNull |}.

End fixtures.

(** ** Predicates of the properties *)

(** The validation error of the data sources: an error attributed to
    the attribute [id]. *)
Definition idError : diag.Diagnostic :=
  diag.NewAttributeErrorDiagnostic "id" idParseSummary idParseDetail.

(** What it is for a lookup to abort on its id: it returns a response
    that carries the validation error on [id] and stores no state, and
    it has made no remote call. *)
Definition abortsOnId {M : Type} (run : Exec (tfsdk.Response M)) : Prop :=
  calls (events run) = []
  /\ exists resp,
      outcome run = Returned resp
      /\ In idError (tfsdk.Diagnostics resp)
      /\ diag.HasError (tfsdk.Diagnostics resp) = true
      /\ tfsdk.State resp = None.

(** The payload of the update call, as [Update] builds it from the
    plan. *)
Definition updatePayloadOf (plan : jiraProjectResourceModel.t)
  : models.ProjectUpdateScheme :=
  {| models.update_Key := types.ValueString (jiraProjectResourceModel.Key plan);
     models.update_Name := types.ValueString (jiraProjectResourceModel.Name plan);
     models.update_Description :=
       types.ValueString (jiraProjectResourceModel.Description plan);
     models.update_AvatarID :=
       int (types.ValueInt64 (jiraProjectResourceModel.AvatarId plan));
     models.update_ProjectTypeKey :=
       types.ValueString (jiraProjectResourceModel.ProjectTypeKey plan);
     models.update_URL := types.ValueString (jiraProjectResourceModel.URL plan) |}.

(** The payload of the create call, as [Create] builds it from the
    plan. *)
Definition createPayloadOf (plan : jiraProjectResourceModel.t)
  : models.ProjectPayloadScheme :=
  {| models.payload_Key := types.ValueString (jiraProjectResourceModel.Key plan);
     models.payload_Name := types.ValueString (jiraProjectResourceModel.Name plan);
     models.payload_Description :=
       types.ValueString (jiraProjectResourceModel.Description plan);
     models.payload_AvatarID :=
       int (types.ValueInt64 (jiraProjectResourceModel.AvatarId plan));
     models.payload_FieldConfigurationScheme :=
       int (types.ValueInt64
              (jiraProjectResourceModel.FieldConfigurationScheme plan));
     models.payload_IssueTypeScheme :=
       int (types.ValueInt64 (jiraProjectResourceModel.IssueTypeScheme plan));
     models.payload_IssueTypeScreenScheme :=
       int (types.ValueInt64 (jiraProjectResourceModel.IssueTypeScreenScheme plan));
     models.payload_LeadAccountID :=
       types.ValueString (jiraProjectResourceModel.LeadAccountId plan);
     models.payload_ProjectTypeKey :=
       types.ValueString (jiraProjectResourceModel.ProjectTypeKey plan);
     models.payload_URL := types.ValueString (jiraProjectResourceModel.URL plan);
     models.payload_WorkflowScheme :=
       int (types.ValueInt64 (jiraProjectResourceModel.WorkflowScheme plan)) |}.

(** The raw body that goes into a diagnostic where the response is
    tested first: empty without a response. *)
Definition rawBody (res : option models.ResponseScheme) : string :=
  match res with
  | Some res => models.Bytes res
  | None => EmptyString
  end.

(** What it is for an operation to stop at the decoding of its request:
    it has logged its first line only, made no remote call, and returns
    the diagnostics of the decoding without a stored state. *)
Definition stopsAtDecoding {M : Type} (first : string) (diags : diag.Diagnostics)
  (run : Exec (tfsdk.Response M)) : Prop :=
  run = ([Log Debug first],
         Returned {| tfsdk.Diagnostics := diag.Append [] diags;
                     tfsdk.State := None |}).

(** The state of a read after the fields of the project have been
    assigned and before the associations are scanned: eight fields from
    the project, the four scheme fields as they were. *)
Definition readBase (project : models.ProjectScheme) (avatarID : Z)
  (lead : models.UserScheme) (state : jiraProjectResourceModel.t)
  : jiraProjectResourceModel.t :=
  {| jiraProjectResourceModel.ID := types.StringValue (models.ID project);
     jiraProjectResourceModel.Key := types.StringValue (models.Key project);
     jiraProjectResourceModel.Name := types.StringValue (models.Name project);
     jiraProjectResourceModel.Description :=
       types.StringValue (models.Description project);
     jiraProjectResourceModel.AvatarId := types.Int64Value (int64 avatarID);
     jiraProjectResourceModel.FieldConfigurationScheme :=
       jiraProjectResourceModel.FieldConfigurationScheme state;
     jiraProjectResourceModel.IssueTypeScheme :=
       jiraProjectResourceModel.IssueTypeScheme state;
     jiraProjectResourceModel.IssueTypeScreenScheme :=
       jiraProjectResourceModel.IssueTypeScreenScheme state;
     jiraProjectResourceModel.WorkflowScheme :=
       jiraProjectResourceModel.WorkflowScheme state;
     jiraProjectResourceModel.LeadAccountId :=
       types.StringValue (models.AccountID lead);
     jiraProjectResourceModel.ProjectTypeKey :=
       types.StringValue (models.ProjectTypeKey project);
     jiraProjectResourceModel.URL := types.StringValue (models.URL project) |}.

(** The issue type scheme a read takes from a scheme of the remote
    system: its id as a number, zero when it is none. *)
Definition schemeValue (scheme : models.IssueTypeSchemeScheme) : types.Int64 :=
  types.Int64Value (int64 (fst (strconv.Atoi (models.scheme_ID scheme)))).

(** The number of occurrences of a byte in a string. *)
Fixpoint occurrences (sep : ascii) (s : string) : nat :=
  match s with
  | EmptyString => 0%nat
  | String c rest =>
      if Ascii.eqb c sep then S (occurrences sep rest) else occurrences sep rest
  end.

(** The number a sequence of decimal digits denotes after the digits
    already read, which denote [acc]. *)
Fixpoint uintValue (d : Decimal.uint) (acc : Z) : Z :=
  match d with
  | Decimal.Nil => acc
  | Decimal.D0 d => uintValue d (acc * 10 + 0)
  | Decimal.D1 d => uintValue d (acc * 10 + 1)
  | Decimal.D2 d => uintValue d (acc * 10 + 2)
  | Decimal.D3 d => uintValue d (acc * 10 + 3)
  | Decimal.D4 d => uintValue d (acc * 10 + 4)
  | Decimal.D5 d => uintValue d (acc * 10 + 5)
  | Decimal.D6 d => uintValue d (acc * 10 + 6)
  | Decimal.D7 d => uintValue d (acc * 10 + 7)
  | Decimal.D8 d => uintValue d (acc * 10 + 8)
  | Decimal.D9 d => uintValue d (acc * 10 + 9)
  end.


(** * Properties *)

(** ** Diagnostics *)

Lemma Equal_isError (a b : diag.Diagnostic) :
  diag.Equal a b = true -> diag.isError a = diag.isError b.
Proof.
  unfold diag.Equal, diag.isError.
  destruct (diag.severity a), (diag.severity b); simpl; congruence.
Qed.

Lemma Contains_HasError (diags : diag.Diagnostics) (d : diag.Diagnostic) :
  diag.Contains diags d = true -> diag.isError d = true ->
  diag.HasError diags = true.
Proof.
  unfold diag.Contains, diag.HasError.
  intros Hin Herr. apply existsb_exists in Hin as (d' & Hd' & Heq).
  apply existsb_exists. exists d'. split; [assumption|].
  rewrite <- (Equal_isError _ _ Heq). exact Herr.
Qed.

(** Appending keeps and adds errors: the result has an error exactly
    when one of the two lists has one. *)
Lemma HasError_Append (more diags : diag.Diagnostics) :
  diag.HasError (diag.Append diags more)
  = (diag.HasError diags || diag.HasError more)%bool.
Proof.
  revert diags. induction more as [|d more IH]; intros diags; simpl.
  - now rewrite orb_false_r.
  - destruct (diag.Contains diags d) eqn:Hc; rewrite IH.
    + destruct (diag.isError d) eqn:Hd; simpl; [|reflexivity].
      rewrite (Contains_HasError _ _ Hc Hd). reflexivity.
    + unfold diag.HasError. rewrite existsb_app. simpl.
      rewrite orb_false_r, orb_assoc. reflexivity.
Qed.

Lemma Equal_refl (d : diag.Diagnostic) : diag.Equal d d = true.
Proof.
  unfold diag.Equal. rewrite !String.eqb_refl.
  destruct (diag.severity d), (diag.attribute d); simpl;
    rewrite ?String.eqb_refl; reflexivity.
Qed.

(** A diagnostic that was added is among the diagnostics. *)
Lemma In_Append_one (diags : diag.Diagnostics) (d : diag.Diagnostic) :
  In d (diag.Append diags [d]).
Proof.
  simpl. destruct (diag.Contains diags d) eqn:Hc.
  - apply existsb_exists in Hc as (d' & Hd' & Heq).
    assert (d = d') as ->; [|exact Hd'].
    destruct d as [s a su de], d' as [s' a' su' de'].
    unfold diag.Equal in Heq; simpl in Heq.
    apply andb_prop in Heq as (Heq & Hde).
    apply andb_prop in Heq as (Heq & Hsu).
    apply andb_prop in Heq as (Hs & Ha).
    apply String.eqb_eq in Hde, Hsu. subst.
    destruct s, s'; try discriminate;
      destruct a, a'; try discriminate;
      try (apply String.eqb_eq in Ha; subst); reflexivity.
  - apply in_or_app. right. left. reflexivity.
Qed.

(** A decoding without error leaves the response without error. *)
Lemma HasError_decoded (diags : diag.Diagnostics) :
  diag.HasError diags = false -> diag.HasError (diag.Append [] diags) = false.
Proof. intros H. rewrite HasError_Append, H. reflexivity. Qed.

(** The handlers are unfolded with these operations kept folded. *)
#[local] Arguments diag.HasError : simpl never.
#[local] Arguments diag.Append : simpl never.
#[local] Arguments String.append : simpl never.
#[local] Arguments strconv.Atoi : simpl never.
#[local] Arguments strings.Split : simpl never.
#[local] Arguments nth_error : simpl never.

(** ** Events *)

Lemma calls_app (a b : list Event) : calls (a ++ b) = calls a ++ calls b.
Proof.
  induction a as [|[c|l m] a IH]; simpl; [reflexivity | now rewrite IH | exact IH].
Qed.


(** A run that panics, or returns a response without a stored state,
    is no run that succeeds. *)
Ltac no_stored_state :=
  let Hout := fresh "Hout" in
  let Hstored := fresh "Hstored" in
  cbn;
  repeat match goal with
         | |- context [deref ?p] => is_var p; destruct p; cbn
         end;
  intros Hout;
  first [ discriminate Hout
        | injection Hout as <-; cbn; intros Hstored; discriminate Hstored ].

(** ** Delete *)

Section DeleteProperties.

Import jiraProjectResourceModel.

Variable r : jira.Client.
Variable req : resource.DeleteRequest t.
Variable state : t.
Variable diags : diag.Diagnostics.
Hypothesis Hstate : tfsdk.Get (resource.delete_State req) = (state, diags).
Hypothesis Hdiags : diag.HasError diags = false.

(** The events of a delete, whatever the remote system answers: two
    log lines, the delete call, and a third log line on success. *)
Lemma Delete_events :
  events (jiraProjectResource.Delete r req)
  = [Log Debug "Deleting project resource";
     Log Debug "Loaded project from state";
     Remote (jira.CallProjectDelete (types.ValueString (ID state)) false)]
    ++ match snd (jira.Project_Delete r (types.ValueString (ID state)) false) with
       | Some _ => []
       | None => [Log Debug "Deleted project from API state"]
       end.
Proof.
  unfold jiraProjectResource.Delete. rewrite Hstate. cbn.
  rewrite (HasError_decoded _ Hdiags). cbn.
  destruct (jira.Project_Delete r _ false) as [[res|] [err|]]; reflexivity.
Qed.

End DeleteProperties.


(** C9. A delete whose state record decodes issues exactly one remote
    call, whatever the remote system answers: the delete of the project
    named by the id of the state, with the query flag [false].  When the
    call succeeds the operation returns with no further call, no
    diagnostic of its own and the state untouched. *)
Theorem Delete_issues_one_call :
  forall (r : jira.Client) (req : resource.DeleteRequest jiraProjectResourceModel.t)
         (state : jiraProjectResourceModel.t) (diags : diag.Diagnostics),
    tfsdk.Get (resource.delete_State req) = (state, diags) ->
    diag.HasError diags = false ->
    let id := types.ValueString (jiraProjectResourceModel.ID state) in
    calls (events (jiraProjectResource.Delete r req))
    = [jira.CallProjectDelete id false]
    /\ (forall res, jira.Project_Delete r id false = (res, None) ->
        outcome (jiraProjectResource.Delete r req)
        = Returned {| tfsdk.Diagnostics := diag.Append [] diags;
                      tfsdk.State := None |}).
Proof.
  intros r req state diags Hstate Hdiags id. split.
  - rewrite (Delete_events r req state diags Hstate Hdiags), calls_app.
    destruct (snd _); reflexivity.
  - intros res Hres. unfold jiraProjectResource.Delete.
    rewrite Hstate. cbn. rewrite (HasError_decoded _ Hdiags). cbn.
    fold id. rewrite Hres. reflexivity.
Qed.

(** The scenario of the specification: state id 10001. *)
Lemma Delete_issues_one_call_witness :
  calls (events (jiraProjectResource.Delete (fixtures.online [])
                   {| resource.delete_State :=
                        fixtures.decoded (fixtures.state "10001") |}))
  = [jira.CallProjectDelete "10001" false]
  /\ outcome (jiraProjectResource.Delete (fixtures.online [])
                {| resource.delete_State :=
                     fixtures.decoded (fixtures.state "10001") |})
     = Returned {| tfsdk.Diagnostics := []; tfsdk.State := None |}.
Proof.
  destruct (Delete_issues_one_call (fixtures.online [])
              {| resource.delete_State := fixtures.decoded (fixtures.state "10001") |}
              (fixtures.state "10001") [] eq_refl eq_refl) as [Hcalls Hdone].
  split; [exact Hcalls | exact (Hdone _ eq_refl)].
Defined.

(** ** Validation of the id of a data source *)

Lemma WorkflowScheme_rejects_id :
  forall (d : jira.Client)
         (req : datasource.ReadRequest jiraWorkflowSchemeDataSourceModel.t)
         newState diags n e,
    tfsdk.Get (datasource.Config req) = (newState, diags) ->
    diag.HasError diags = false ->
    strconv.Atoi (types.ValueString (jiraWorkflowSchemeDataSourceModel.ID newState))
    = (n, Some e) ->
    jiraWorkflowSchemeDataSource.Read d req
    = ([Log Debug "Reading workflow scheme data source";
        Log Debug "Loaded status config"],
       Returned {| tfsdk.Diagnostics := diag.Append (diag.Append [] diags) [idError];
                   tfsdk.State := None |}).
Proof.
  intros d req newState diags n e Hcfg Hdiags Hid.
  unfold jiraWorkflowSchemeDataSource.Read. rewrite Hcfg. cbn.
  rewrite (HasError_decoded _ Hdiags). cbn. rewrite Hid. reflexivity.
Qed.

Lemma IssueScreen_rejects_id :
  forall (d : jira.Client)
         (req : datasource.ReadRequest jiraIssueScreenDataSourceModel.t)
         newState diags n e,
    tfsdk.Get (datasource.Config req) = (newState, diags) ->
    diag.HasError diags = false ->
    strconv.Atoi (types.ValueString (jiraIssueScreenDataSourceModel.ID newState))
    = (n, Some e) ->
    jiraIssueScreenDataSource.Read d req
    = ([Log Debug "Reading issue screen data source";
        Log Debug "Loaded issue screen config"],
       Returned {| tfsdk.Diagnostics := diag.Append (diag.Append [] diags) [idError];
                   tfsdk.State := None |}).
Proof.
  intros d req newState diags n e Hcfg Hdiags Hid.
  unfold jiraIssueScreenDataSource.Read. rewrite Hcfg. cbn.
  rewrite (HasError_decoded _ Hdiags). cbn. rewrite Hid. reflexivity.
Qed.

(** C7. A workflow scheme or issue screen lookup whose configuration
    decodes and whose id is rejected by [strconv.Atoi] aborts with the
    validation error attributed to the attribute [id], and issues no
    remote call. *)
Theorem non_numeric_id_aborts_without_call :
  (forall (d : jira.Client)
          (req : datasource.ReadRequest jiraWorkflowSchemeDataSourceModel.t)
          newState diags n e,
      tfsdk.Get (datasource.Config req) = (newState, diags) ->
      diag.HasError diags = false ->
      strconv.Atoi (types.ValueString (jiraWorkflowSchemeDataSourceModel.ID newState))
      = (n, Some e) ->
      abortsOnId (jiraWorkflowSchemeDataSource.Read d req))
  /\ (forall (d : jira.Client)
             (req : datasource.ReadRequest jiraIssueScreenDataSourceModel.t)
             newState diags n e,
         tfsdk.Get (datasource.Config req) = (newState, diags) ->
         diag.HasError diags = false ->
         strconv.Atoi (types.ValueString (jiraIssueScreenDataSourceModel.ID newState))
         = (n, Some e) ->
         abortsOnId (jiraIssueScreenDataSource.Read d req)).
Proof.
  split; intros d req newState diags n e Hcfg Hdiags Hid.
  - rewrite (WorkflowScheme_rejects_id d req newState diags n e Hcfg Hdiags Hid).
    split; [reflexivity|]. eexists. split; [reflexivity|]. cbn.
    repeat split.
    + apply In_Append_one.
    + rewrite HasError_Append. apply orb_true_r.
  - rewrite (IssueScreen_rejects_id d req newState diags n e Hcfg Hdiags Hid).
    split; [reflexivity|]. eexists. split; [reflexivity|]. cbn.
    repeat split.
    + apply In_Append_one.
    + rewrite HasError_Append. apply orb_true_r.
Qed.

(** The ids [abc] and [12a] are rejected, against a remote system that
    would answer. *)
Lemma non_numeric_id_aborts_without_call_witness :
  abortsOnId
    (jiraWorkflowSchemeDataSource.Read (fixtures.online [])
       {| datasource.Config :=
            fixtures.decoded (fixtures.workflowSchemeConfig "abc") |})
  /\ abortsOnId
       (jiraIssueScreenDataSource.Read (fixtures.online [])
          {| datasource.Config :=
               fixtures.decoded (fixtures.issueScreenConfig "12a") |}).
Proof.
  destruct non_numeric_id_aborts_without_call as [Hworkflow Hscreen].
  split.
  - eapply Hworkflow; reflexivity.
  - eapply Hscreen; reflexivity.
Defined.

(** ** First element of a returned collection *)

(** C2. When the remote call of a status or issue screen lookup
    succeeds, the record stored is made from the first element of the
    returned collection alone, whatever follows it: name, description
    and category of the first status, name and description of the first
    screen.  On an empty collection the lookup ends in the index out of
    range panic (index 0, length 0): no response, no diagnostic. *)
Theorem lookups_take_first_element :
  (forall (d : jira.Client)
          (req : datasource.ReadRequest jiraStatusDataSourceModel.t)
          newState diags status res,
      tfsdk.Get (datasource.Config req) = (newState, diags) ->
      diag.HasError diags = false ->
      types.ValueString (jiraStatusDataSourceModel.ID newState) <> EmptyString ->
      jira.Workflow_Status_Gets d
        [types.ValueString (jiraStatusDataSourceModel.ID newState)] []
      = (status, res, None) ->
      outcome (jiraStatusDataSource.Read d req)
      = match status with
        | [] => Panicked (IndexOutOfRange 0 0)
        | None :: _ => Panicked NilPointerDereference
        | Some first :: _ =>
            Returned
              {| tfsdk.Diagnostics := diag.Append [] diags;
                 tfsdk.State :=
                   Some {| jiraStatusDataSourceModel.ID :=
                             jiraStatusDataSourceModel.ID newState;
                           jiraStatusDataSourceModel.Name :=
                             types.StringValue (models.status_Name first);
                           jiraStatusDataSourceModel.Description :=
                             types.StringValue (models.status_Description first);
                           jiraStatusDataSourceModel.Category :=
                             types.StringValue (models.StatusCategory first) |} |}
        end)
  /\ (forall (d : jira.Client)
             (req : datasource.ReadRequest jiraIssueScreenDataSourceModel.t)
             newState diags issueScreenId issueScreen res,
         tfsdk.Get (datasource.Config req) = (newState, diags) ->
         diag.HasError diags = false ->
         strconv.Atoi (types.ValueString (jiraIssueScreenDataSourceModel.ID newState))
         = (issueScreenId, None) ->
         jira.Screen_Gets d {| models.IDs := [issueScreenId] |} 0 50
         = (Some issueScreen, res, None) ->
         outcome (jiraIssueScreenDataSource.Read d req)
         = match models.screens_Values issueScreen with
           | [] => Panicked (IndexOutOfRange 0 0)
           | None :: _ => Panicked NilPointerDereference
           | Some first :: _ =>
               Returned
                 {| tfsdk.Diagnostics := diag.Append [] diags;
                    tfsdk.State :=
                      Some {| jiraIssueScreenDataSourceModel.ID :=
                                jiraIssueScreenDataSourceModel.ID newState;
                              jiraIssueScreenDataSourceModel.Name :=
                                types.StringValue (models.screen_Name first);
                              jiraIssueScreenDataSourceModel.Description :=
                                types.StringValue (models.screen_Description first) |} |}
           end).
Proof.
  split.
  - intros d req newState diags status res Hcfg Hdiags Hid Hgets.
    unfold jiraStatusDataSource.Read. rewrite Hcfg. cbn.
    rewrite (HasError_decoded _ Hdiags). cbn.
    apply String.eqb_neq in Hid. rewrite Hid. cbn. rewrite Hgets.
    destruct status as [|[first|] rest]; reflexivity.
  - intros d req newState diags issueScreenId issueScreen res Hcfg Hdiags Hid Hgets.
    unfold jiraIssueScreenDataSource.Read. rewrite Hcfg. cbn.
    rewrite (HasError_decoded _ Hdiags). cbn. rewrite Hid. cbn. rewrite Hgets.
    destruct issueScreen as [[|[first|] rest]]; reflexivity.
Qed.

(** Status 10001 and screen 10000, against a remote system that finds
    the id but returns an empty collection: both lookups panic. *)
Lemma lookups_take_first_element_witness :
  outcome (jiraStatusDataSource.Read fixtures.emptyPages
             {| datasource.Config :=
                  fixtures.decoded (fixtures.statusConfig "10001") |})
  = Panicked (IndexOutOfRange 0 0)
  /\ outcome (jiraIssueScreenDataSource.Read fixtures.emptyPages
                {| datasource.Config :=
                     fixtures.decoded (fixtures.issueScreenConfig "10000") |})
     = Panicked (IndexOutOfRange 0 0).
Proof.
  destruct lookups_take_first_element as [Hstatus Hscreen].
  split.
  - apply (Hstatus fixtures.emptyPages
             {| datasource.Config :=
                  fixtures.decoded (fixtures.statusConfig "10001") |}
             (fixtures.statusConfig "10001") [] [] fixtures.success);
      [reflexivity | reflexivity | discriminate | reflexivity].
  - apply (Hscreen fixtures.emptyPages
             {| datasource.Config :=
                  fixtures.decoded (fixtures.issueScreenConfig "10000") |}
             (fixtures.issueScreenConfig "10000") [] 10000
             {| models.screens_Values := [] |} fixtures.success);
      reflexivity.
Defined.

(** ** Create *)



(** ** Update *)

(** Parsing the avatar id makes no remote call and logs nothing. *)
Lemma avatarIDOf_events (url_Parse : string -> option url.URL)
  (project : models.ProjectScheme) :
  events (jiraProjectResource.avatarIDOf url_Parse project) = [].
Proof.
  unfold jiraProjectResource.avatarIDOf, index.
  destruct (models.AvatarUrls project) as [avatarUrls|]; cbn; [|reflexivity].
  destruct (url_Parse _) as [avatarUrl|]; cbn; [|reflexivity].
  destruct (nth_error (strings.Split (url.Path avatarUrl) _) 9) as [segment|];
    cbn; [|reflexivity].
  destruct (strconv.Atoi segment); reflexivity.
Qed.

#[local] Arguments jiraProjectResource.avatarIDOf : simpl never.

Section UpdateProperties.

Import jiraProjectResourceModel.

Variable url_Parse : string -> option url.URL.
Variable r : jira.Client.
Variable req : resource.UpdateRequest t.
Variables plan state : t.
Variables planDiags stateDiags : diag.Diagnostics.
Hypothesis Hplan : tfsdk.Get (resource.update_Plan req) = (plan, planDiags).
Hypothesis HplanDiags : diag.HasError planDiags = false.
Hypothesis Hstate : tfsdk.Get (resource.update_State req) = (state, stateDiags).
Hypothesis HstateDiags : diag.HasError stateDiags = false.

Let projectID : string := types.ValueString (ID state).

Lemma Update_decoded :
  diag.HasError (diag.Append (diag.Append [] planDiags) stateDiags) = false.
Proof. now rewrite !HasError_Append, HplanDiags, HstateDiags. Qed.

(** The remote calls of an update whose plan and state decode: the
    update of the project, and after its success the assignment of the
    issue type scheme. *)
Lemma Update_calls :
  calls (events (jiraProjectResource.Update url_Parse r req))
  = jira.CallProjectUpdate projectID (updatePayloadOf plan)
    :: match jira.Project_Update r projectID (updatePayloadOf plan) with
       | (Some returnedProject, _, None) =>
           [jira.CallIssueTypeSchemeAssign
              (types.Int64_String (IssueTypeScheme plan))
              (models.ID returnedProject)]
       | _ => []
       end.
Proof.
  unfold jiraProjectResource.Update. rewrite Hplan. cbn.
  rewrite (HasError_decoded _ HplanDiags). cbn. rewrite Hstate. cbn.
  rewrite Update_decoded. cbn. fold projectID. fold (updatePayloadOf plan).
  destruct (jira.Project_Update r projectID (updatePayloadOf plan))
    as [[[returnedProject|] res] [err|]]; cbn;
    try (destruct res; reflexivity); try reflexivity.
  destruct (jira.Issue_Type_Scheme_Assign r _ _) as [response [err|]]; cbn.
  - destruct response; reflexivity.
  - pose proof (avatarIDOf_events url_Parse returnedProject) as Hev.
    destruct (jiraProjectResource.avatarIDOf url_Parse returnedProject)
      as [evs [avatarID|p]]; cbn in Hev; subst evs; cbn; [|reflexivity].
    destruct (models.Lead returnedProject); reflexivity.
Qed.

End UpdateProperties.

(** C4. An update whose plan and state decode makes the project update
    its first remote call, keyed by the id of the prior state; no
    project update call of the operation carries another id, whatever
    the id of the plan. *)
Theorem Update_keyed_by_state_id :
  forall (url_Parse : string -> option url.URL) (r : jira.Client)
         (req : resource.UpdateRequest jiraProjectResourceModel.t)
         (plan state : jiraProjectResourceModel.t)
         (planDiags stateDiags : diag.Diagnostics),
    tfsdk.Get (resource.update_Plan req) = (plan, planDiags) ->
    diag.HasError planDiags = false ->
    tfsdk.Get (resource.update_State req) = (state, stateDiags) ->
    diag.HasError stateDiags = false ->
    (exists rest,
        calls (events (jiraProjectResource.Update url_Parse r req))
        = jira.CallProjectUpdate
            (types.ValueString (jiraProjectResourceModel.ID state))
            (updatePayloadOf plan) :: rest)
    /\ (forall id payload,
           In (jira.CallProjectUpdate id payload)
              (calls (events (jiraProjectResource.Update url_Parse r req))) ->
           id = types.ValueString (jiraProjectResourceModel.ID state)).
Proof.
  intros url_Parse r req plan state planDiags stateDiags
    Hplan HplanDiags Hstate HstateDiags.
  rewrite (Update_calls url_Parse r req plan state planDiags stateDiags
             Hplan HplanDiags Hstate HstateDiags).
  split; [eexists; reflexivity|].
  intros id payload [Hhead|Hrest].
  - now injection Hhead as <- _.
  - destruct (jira.Project_Update r _ _) as [[[returnedProject|] res] [err|]];
      cbn in Hrest; try contradiction.
    destruct Hrest as [Hassign|[]]. discriminate Hassign.
Qed.

(** A plan whose id, 20002, differs from the id of the state, 10001. *)
Lemma Update_keyed_by_state_id_witness :
  (exists rest,
      calls (events (jiraProjectResource.Update fixtures.url_Parse (fixtures.online [])
                       {| resource.update_Plan :=
                            fixtures.decoded
                              (jiraProjectResourceModel.set_ID
                                 (types.StringValue "20002") fixtures.plan);
                          resource.update_State :=
                            fixtures.decoded (fixtures.state "10001") |}))
      = jira.CallProjectUpdate "10001"
          (updatePayloadOf
             (jiraProjectResourceModel.set_ID (types.StringValue "20002")
                fixtures.plan)) :: rest)
  /\ (forall id payload,
         In (jira.CallProjectUpdate id payload)
            (calls (events (jiraProjectResource.Update fixtures.url_Parse
                              (fixtures.online [])
                              {| resource.update_Plan :=
                                   fixtures.decoded
                                     (jiraProjectResourceModel.set_ID
                                        (types.StringValue "20002") fixtures.plan);
                                 resource.update_State :=
                                   fixtures.decoded (fixtures.state "10001") |}))) ->
         id = "10001").
Proof.
  apply (Update_keyed_by_state_id fixtures.url_Parse (fixtures.online [])
           {| resource.update_Plan :=
                fixtures.decoded
                  (jiraProjectResourceModel.set_ID (types.StringValue "20002")
                     fixtures.plan);
              resource.update_State := fixtures.decoded (fixtures.state "10001") |}
           (jiraProjectResourceModel.set_ID (types.StringValue "20002") fixtures.plan)
           (fixtures.state "10001") [] []); reflexivity.
Defined.

(** C5. An update whose plan and state decode and whose project update
    call succeeds makes exactly one more call: the assignment of the
    issue type scheme of the plan, rendered by its [String()] method, to
    the id of the returned project.  No test on the value stands before
    the call: a null value is sent as [<null>], a zero as [0]. *)
Theorem Update_assigns_issue_type_scheme :
  forall (url_Parse : string -> option url.URL) (r : jira.Client)
         (req : resource.UpdateRequest jiraProjectResourceModel.t)
         (plan state : jiraProjectResourceModel.t)
         (planDiags stateDiags : diag.Diagnostics)
         (returnedProject : models.ProjectScheme)
         (res : option models.ResponseScheme),
    tfsdk.Get (resource.update_Plan req) = (plan, planDiags) ->
    diag.HasError planDiags = false ->
    tfsdk.Get (resource.update_State req) = (state, stateDiags) ->
    diag.HasError stateDiags = false ->
    jira.Project_Update r (types.ValueString (jiraProjectResourceModel.ID state))
      (updatePayloadOf plan)
    = (Some returnedProject, res, None) ->
    calls (events (jiraProjectResource.Update url_Parse r req))
    = [jira.CallProjectUpdate
         (types.ValueString (jiraProjectResourceModel.ID state))
         (updatePayloadOf plan);
       jira.CallIssueTypeSchemeAssign
         (types.Int64_String (jiraProjectResourceModel.IssueTypeScheme plan))
         (models.ID returnedProject)]
    /\ (jiraProjectResourceModel.IssueTypeScheme plan = types.Int64Null ->
        In (jira.CallIssueTypeSchemeAssign "<null>" (models.ID returnedProject))
           (calls (events (jiraProjectResource.Update url_Parse r req))))
    /\ (jiraProjectResourceModel.IssueTypeScheme plan = types.Int64Value 0 ->
        In (jira.CallIssueTypeSchemeAssign "0" (models.ID returnedProject))
           (calls (events (jiraProjectResource.Update url_Parse r req)))).
Proof.
  intros url_Parse r req plan state planDiags stateDiags returnedProject res
    Hplan HplanDiags Hstate HstateDiags Hupdate.
  rewrite (Update_calls url_Parse r req plan state planDiags stateDiags
             Hplan HplanDiags Hstate HstateDiags), Hupdate.
  split; [reflexivity|].
  split; intros ->; right; left; reflexivity.
Qed.

(** A plan whose issue type scheme is null: the assignment is called
    with [<null>] for project 10001. *)
Lemma Update_assigns_issue_type_scheme_witness :
  calls (events (jiraProjectResource.Update fixtures.url_Parse (fixtures.online [])
                   {| resource.update_Plan := fixtures.decoded fixtures.plan;
                      resource.update_State :=
                        fixtures.decoded (fixtures.state "10001") |}))
  = [jira.CallProjectUpdate "10001" (updatePayloadOf fixtures.plan);
     jira.CallIssueTypeSchemeAssign "<null>" "10001"].
Proof.
  destruct (Update_assigns_issue_type_scheme fixtures.url_Parse (fixtures.online [])
              {| resource.update_Plan := fixtures.decoded fixtures.plan;
                 resource.update_State := fixtures.decoded (fixtures.state "10001") |}
              fixtures.plan (fixtures.state "10001") [] []
              fixtures.project fixtures.success
              eq_refl eq_refl eq_refl eq_refl eq_refl) as [Hcalls _].
  exact Hcalls.
Defined.



(** ** Read *)

(** The inner loop compares the indexes [i], [i + 1], ... of the
    membership list with the project id: the scheme is taken exactly
    when the id is one of these indexes. *)
Lemma rangeProjectIds_index :
  forall (ProjectIds : list string) (i projectIDInt : Z)
         (scheme : models.IssueTypeSchemeScheme) (state : jiraProjectResourceModel.t),
    jiraProjectResource.rangeProjectIds i ProjectIds projectIDInt scheme state
    = if ((i <=? projectIDInt)
          && (projectIDInt <? i + Z.of_nat (List.length ProjectIds)))%bool
      then jiraProjectResourceModel.set_IssueTypeScheme
             (types.Int64Value (int64 (fst (strconv.Atoi (models.scheme_ID scheme)))))
             state
      else state.
Proof.
  induction ProjectIds as [|id rest IH]; intros i projectIDInt scheme state.
  - cbn [jiraProjectResource.rangeProjectIds List.length Z.of_nat].
    destruct (Z.leb_spec i projectIDInt), (Z.ltb_spec projectIDInt (i + 0));
      try reflexivity; lia.
  - cbn [jiraProjectResource.rangeProjectIds].
    destruct (Z.eqb_spec i projectIDInt) as [->|Hne].
    + destruct (strconv.Atoi (models.scheme_ID scheme)) as [n e]; cbn [fst].
      destruct (Z.leb_spec projectIDInt projectIDInt); [|lia].
      destruct (Z.ltb_spec projectIDInt
                  (projectIDInt + Z.of_nat (List.length (id :: rest))));
        [reflexivity|].
      cbn [List.length] in *; lia.
    + rewrite IH.
      replace (i + Z.of_nat (List.length (id :: rest)))
        with (i + 1 + Z.of_nat (List.length rest)) by (cbn [List.length]; lia).
      destruct (Z.leb_spec (i + 1) projectIDInt), (Z.leb_spec i projectIDInt);
        try reflexivity; lia.
Qed.

(** The outer loop makes no remote call. *)
Lemma rangeValues_calls :
  forall (Values : list (option models.IssueTypeSchemeProjectsScheme))
         (projectIDInt : Z) (state : jiraProjectResourceModel.t),
    calls (events (jiraProjectResource.rangeValues Values projectIDInt state)) = [].
Proof.
  induction Values as [|[issueTypeScheme|] rest IH]; intros projectIDInt state;
    [reflexivity| |reflexivity].
  cbn. destruct (models.IssueTypeScheme issueTypeScheme) as [scheme|];
    [|reflexivity].
  cbn. specialize (IH projectIDInt
                     (jiraProjectResource.rangeProjectIds 0
                        (models.ProjectIds issueTypeScheme) projectIDInt scheme state)).
  destruct (jiraProjectResource.rangeValues rest _ _) as [evs out].
  exact IH.
Qed.

Section ReadProperties.

Import jiraProjectResourceModel.

Variable url_Parse : string -> option url.URL.
Variable r : jira.Client.
Variable req : resource.ReadRequest t.

Let projectID : string :=
  types.ValueString (ID (fst (tfsdk.Get (resource.read_State req)))).

Let projectIDInt : Z := fst (strconv.Atoi projectID).

(** Follows [Read] up to its second remote call, through the decoding,
    the first call and the fields taken from the project. *)
Ltac read_to_second_call :=
  unfold jiraProjectResource.Read;
  subst projectIDInt projectID;
  destruct (tfsdk.Get (resource.read_State req)) as [state diags];
  cbn;
  destruct (diag.HasError (diag.Append [] diags)); [cbn; auto|];
  cbn;
  destruct (jira.Project_Get r _ _) as [[[project|] [res|]] [err|]];
  cbn; auto;
  pose proof (avatarIDOf_events url_Parse project) as Hno;
  destruct (jiraProjectResource.avatarIDOf url_Parse project)
    as [evs [avatarID|p]];
  cbn in Hno; subst evs; cbn; auto;
  destruct (models.Lead project) as [lead|]; cbn; auto;
  destruct (strconv.Atoi (types.ValueString (ID state))) as [n e]; cbn.

(** The remote calls of a read are a prefix of: the lookup of the
    project, then the lookup of the associations of its numeric id, from
    position 0 and with page length 1. *)
Lemma Read_calls :
  let run := calls (events (jiraProjectResource.Read url_Parse r req)) in
  run = []
  \/ run = [jira.CallProjectGet projectID []]
  \/ run = [jira.CallProjectGet projectID [];
            jira.CallIssueTypeSchemeProjects [projectIDInt] 0 1].
Proof.
  read_to_second_call;
    destruct (jira.Issue_Type_Scheme_Projects r [n] 0 1)
      as [[[issueTypesSchemes|] [res'|]] [err|]]; cbn; auto;
    match goal with
    | |- context [jiraProjectResource.rangeValues ?vs ?p ?st] =>
        pose proof (rangeValues_calls vs p st) as Hrange;
        destruct (jiraProjectResource.rangeValues vs p st) as [evs [st'|pn]]
    end; cbn in *; rewrite ?calls_app, ?Hrange; cbn; auto.
Qed.

End ReadProperties.






(** C1. What [Read] does where the membership list of the returned
    association names the project.  Project 10001, prior issue type
    scheme 10000, scheme 10005 associated with the projects [10001]:
    the loop compares the index 0 with 10001, and the stored state keeps
    scheme 10000.  Project 1, scheme 10005 associated with the projects
    [10003] and [10004]: the loop finds the index 1, and the stored
    state has scheme 10005, of which project 1 is no member.  The avatar
    URL of the project is assumed to parse to its path. *)
Theorem Read_compares_index_with_project_id :
  forall url_Parse : string -> option url.URL,
    url_Parse fixtures.avatarURL = Some {| url.Path := fixtures.avatarPath |} ->
    (exists stored,
        outcome (jiraProjectResource.Read url_Parse
                   (fixtures.online [fixtures.association ["10001"]])
                   {| resource.read_State :=
                        fixtures.decoded (fixtures.state "10001") |})
        = Returned {| tfsdk.Diagnostics := []; tfsdk.State := Some stored |}
        /\ jiraProjectResourceModel.IssueTypeScheme stored = types.Int64Value 10000)
    /\ (exists stored,
           outcome (jiraProjectResource.Read url_Parse
                      (fixtures.online [fixtures.association ["10003"; "10004"]])
                      {| resource.read_State :=
                           fixtures.decoded (fixtures.state "1") |})
           = Returned {| tfsdk.Diagnostics := []; tfsdk.State := Some stored |}
           /\ jiraProjectResourceModel.IssueTypeScheme stored
              = types.Int64Value 10005).
Proof.
  intros url_Parse Hparse.
  split; eexists;
    unfold jiraProjectResource.Read, jiraProjectResource.avatarIDOf;
    cbn; rewrite Hparse; split; reflexivity.
Qed.

(** The parser of the fixtures parses the avatar URL to its path. *)
Lemma Read_compares_index_with_project_id_witness :
  (exists stored,
      outcome (jiraProjectResource.Read fixtures.url_Parse
                 (fixtures.online [fixtures.association ["10001"]])
                 {| resource.read_State :=
                      fixtures.decoded (fixtures.state "10001") |})
      = Returned {| tfsdk.Diagnostics := []; tfsdk.State := Some stored |}
      /\ jiraProjectResourceModel.IssueTypeScheme stored = types.Int64Value 10000)
  /\ (exists stored,
         outcome (jiraProjectResource.Read fixtures.url_Parse
                    (fixtures.online [fixtures.association ["10003"; "10004"]])
                    {| resource.read_State :=
                         fixtures.decoded (fixtures.state "1") |})
         = Returned {| tfsdk.Diagnostics := []; tfsdk.State := Some stored |}
         /\ jiraProjectResourceModel.IssueTypeScheme stored
            = types.Int64Value 10005).
Proof.
  exact (Read_compares_index_with_project_id fixtures.url_Parse eq_refl).
Defined.

(** ** Remote errors *)

(** With a response at hand, a failed delete returns the diagnostic
    made of the error message and the raw body. *)
Lemma Delete_error_with_response :
  forall (r : jira.Client) (req : resource.DeleteRequest jiraProjectResourceModel.t)
         state diags res err,
    tfsdk.Get (resource.delete_State req) = (state, diags) ->
    diag.HasError diags = false ->
    jira.Project_Delete r (types.ValueString (jiraProjectResourceModel.ID state)) false
    = (Some res, Some err) ->
    outcome (jiraProjectResource.Delete r req)
    = Returned
        {| tfsdk.Diagnostics :=
             diag.AddError (diag.Append [] diags) "Client Error"
               ("Unable to delete project, got error: "
                  ++ err ++ LF ++ models.Bytes res);
           tfsdk.State := None |}.
Proof.
  intros r req state diags res err Hstate Hdiags Hdelete.
  unfold jiraProjectResource.Delete. rewrite Hstate. cbn.
  rewrite (HasError_decoded _ Hdiags). cbn. rewrite Hdelete. reflexivity.
Qed.

(** Without a response, a failed delete panics on [res.Bytes]. *)
Lemma Delete_error_without_response :
  forall (r : jira.Client) (req : resource.DeleteRequest jiraProjectResourceModel.t)
         state diags err,
    tfsdk.Get (resource.delete_State req) = (state, diags) ->
    diag.HasError diags = false ->
    jira.Project_Delete r (types.ValueString (jiraProjectResourceModel.ID state)) false
    = (None, Some err) ->
    outcome (jiraProjectResource.Delete r req) = Panicked NilPointerDereference.
Proof.
  intros r req state diags err Hstate Hdiags Hdelete.
  unfold jiraProjectResource.Delete. rewrite Hstate. cbn.
  rewrite (HasError_decoded _ Hdiags). cbn. rewrite Hdelete. reflexivity.
Qed.

(** A failed create returns its diagnostic with or without a response:
    the raw body is read behind a test of the response. *)
Lemma Create_error :
  forall (r : jira.Client) (req : resource.CreateRequest jiraProjectResourceModel.t)
         plan diags returnedProject res err,
    tfsdk.Get (resource.create_Plan req) = (plan, diags) ->
    diag.HasError diags = false ->
    jira.Project_Create r (createPayloadOf plan) = (returnedProject, res, Some err) ->
    outcome (jiraProjectResource.Create r req)
    = Returned
        {| tfsdk.Diagnostics :=
             diag.AddError (diag.Append [] diags) "Client Error"
               ("Unable to create project, got error: "
                  ++ err ++ LF
                  ++ match res with
                     | Some res => models.Bytes res
                     | None => EmptyString
                     end);
           tfsdk.State := None |}.
Proof.
  intros r req plan diags returnedProject res err Hplan Hdiags Hcreate.
  unfold jiraProjectResource.Create. rewrite Hplan. cbn.
  rewrite (HasError_decoded _ Hdiags). cbn.
  fold (createPayloadOf plan). rewrite Hcreate. reflexivity.
Qed.

(** With a response at hand, a read whose project lookup fails returns
    the diagnostic made of the error message and the raw body; without
    one, it panics on [res.Bytes]. *)
Lemma Read_error :
  forall (url_Parse : string -> option url.URL) (r : jira.Client)
         (req : resource.ReadRequest jiraProjectResourceModel.t)
         state diags project res err,
    tfsdk.Get (resource.read_State req) = (state, diags) ->
    diag.HasError diags = false ->
    jira.Project_Get r (types.ValueString (jiraProjectResourceModel.ID state)) []
    = (project, res, Some err) ->
    outcome (jiraProjectResource.Read url_Parse r req)
    = match res with
      | Some res =>
          Returned
            {| tfsdk.Diagnostics :=
                 diag.AddError (diag.Append [] diags) "Client Error"
                   ("Unable to get project, got error: "
                      ++ err ++ LF ++ models.Bytes res);
               tfsdk.State := None |}
      | None => Panicked NilPointerDereference
      end.
Proof.
  intros url_Parse r req state diags project res err Hstate Hdiags Hget.
  unfold jiraProjectResource.Read. rewrite Hstate. cbn.
  rewrite (HasError_decoded _ Hdiags). cbn. rewrite Hget.
  destruct res; reflexivity.
Qed.

(** The same for an update whose project update fails. *)
Lemma Update_error :
  forall (url_Parse : string -> option url.URL) (r : jira.Client)
         (req : resource.UpdateRequest jiraProjectResourceModel.t)
         plan state planDiags stateDiags returnedProject res err,
    tfsdk.Get (resource.update_Plan req) = (plan, planDiags) ->
    diag.HasError planDiags = false ->
    tfsdk.Get (resource.update_State req) = (state, stateDiags) ->
    diag.HasError stateDiags = false ->
    jira.Project_Update r (types.ValueString (jiraProjectResourceModel.ID state))
      (updatePayloadOf plan)
    = (returnedProject, res, Some err) ->
    outcome (jiraProjectResource.Update url_Parse r req)
    = match res with
      | Some res =>
          Returned
            {| tfsdk.Diagnostics :=
                 diag.AddError (diag.Append (diag.Append [] planDiags) stateDiags)
                   "Client Error"
                   ("Unable to update issue type, got error: "
                      ++ err ++ LF ++ models.Bytes res);
               tfsdk.State := None |}
      | None => Panicked NilPointerDereference
      end.
Proof.
  intros url_Parse r req plan state planDiags stateDiags returnedProject res err
    Hplan HplanDiags Hstate HstateDiags Hupdate.
  unfold jiraProjectResource.Update. rewrite Hplan. cbn.
  rewrite (HasError_decoded _ HplanDiags). cbn. rewrite Hstate. cbn.
  rewrite (Update_decoded planDiags stateDiags) by assumption. cbn.
  fold (updatePayloadOf plan). rewrite Hupdate.
  destruct res; reflexivity.
Qed.

(** C3. The four operations against a remote system that cannot be
    reached, so that the error of the call comes without a response.
    The create returns the diagnostic with the error message and an
    empty body.  The read, the update and the delete read the body of
    the absent response and end in the nil pointer panic: no diagnostic
    is returned. *)
Theorem lifecycle_error_without_response :
  forall url_Parse : string -> option url.URL,
    outcome (jiraProjectResource.Create fixtures.offline
               {| resource.create_Plan := fixtures.decoded fixtures.plan |})
    = Returned
        {| tfsdk.Diagnostics :=
             [diag.NewErrorDiagnostic "Client Error"
                ("Unable to create project, got error: connection refused" ++ LF)];
           tfsdk.State := None |}
    /\ outcome (jiraProjectResource.Read url_Parse fixtures.offline
                  {| resource.read_State :=
                       fixtures.decoded (fixtures.state "10001") |})
       = Panicked NilPointerDereference
    /\ outcome (jiraProjectResource.Update url_Parse fixtures.offline
                  {| resource.update_Plan := fixtures.decoded fixtures.plan;
                     resource.update_State :=
                       fixtures.decoded (fixtures.state "10001") |})
       = Panicked NilPointerDereference
    /\ outcome (jiraProjectResource.Delete fixtures.offline
                  {| resource.delete_State :=
                       fixtures.decoded (fixtures.state "10001") |})
       = Panicked NilPointerDereference.
Proof.
  intros url_Parse. repeat split.
Qed.

(** * Further properties of the handlers *)

(** ** Data sources *)

(** X1. A status lookup whose id is empty (also when it is null or
    unknown) aborts with the validation error on [id] and makes no
    remote call. *)
Theorem Status_empty_id_aborts :
  forall (d : jira.Client) (req : datasource.ReadRequest jiraStatusDataSourceModel.t)
         newState diags,
    tfsdk.Get (datasource.Config req) = (newState, diags) ->
    diag.HasError diags = false ->
    types.ValueString (jiraStatusDataSourceModel.ID newState) = EmptyString ->
    abortsOnId (jiraStatusDataSource.Read d req).
Proof.
  intros d req newState diags Hcfg Hdiags Hid.
  unfold abortsOnId, jiraStatusDataSource.Read. rewrite Hcfg. cbn.
  rewrite (HasError_decoded _ Hdiags). cbn. rewrite Hid. cbn.
  split; [reflexivity|].
  eexists. split; [reflexivity|]. cbn. repeat split.
  - apply In_Append_one.
  - unfold diag.AddAttributeError. rewrite HasError_Append. apply orb_true_r.
Qed.

(** A configuration whose id is null. *)
Lemma Status_empty_id_aborts_witness :
  abortsOnId
    (jiraStatusDataSource.Read (fixtures.online [])
       {| datasource.Config :=
            fixtures.decoded
              {| jiraStatusDataSourceModel.ID := types.StringNull;
                 jiraStatusDataSourceModel.Name := types.StringNull;
                 jiraStatusDataSourceModel.Description := types.StringNull;
                 jiraStatusDataSourceModel.Category := types.StringNull |} |}).
Proof.
  eapply Status_empty_id_aborts; reflexivity.
Defined.

(** X2. A status lookup does not parse its id: every id that is not
    empty, numeric or not, is sent to the remote system as it is, in
    the one call the lookup makes, whatever the answer. *)
Theorem Status_sends_id_unparsed :
  forall (d : jira.Client) (req : datasource.ReadRequest jiraStatusDataSourceModel.t)
         newState diags,
    tfsdk.Get (datasource.Config req) = (newState, diags) ->
    diag.HasError diags = false ->
    types.ValueString (jiraStatusDataSourceModel.ID newState) <> EmptyString ->
    calls (events (jiraStatusDataSource.Read d req))
    = [jira.CallWorkflowStatusGets
         [types.ValueString (jiraStatusDataSourceModel.ID newState)] []].
Proof.
  intros d req newState diags Hcfg Hdiags Hid.
  unfold jiraStatusDataSource.Read. rewrite Hcfg. cbn.
  rewrite (HasError_decoded _ Hdiags). cbn.
  apply String.eqb_neq in Hid. rewrite Hid. cbn.
  destruct (jira.Workflow_Status_Gets d _ _) as [[status res] [err|]]; cbn;
    [reflexivity|].
  destruct status as [|[first|] rest]; reflexivity.
Qed.

(** The id [abc], which no number parser accepts. *)
Lemma Status_sends_id_unparsed_witness :
  calls (events (jiraStatusDataSource.Read (fixtures.online [])
                   {| datasource.Config :=
                        fixtures.decoded (fixtures.statusConfig "abc") |}))
  = [jira.CallWorkflowStatusGets ["abc"] []].
Proof.
  apply (Status_sends_id_unparsed (fixtures.online [])
           {| datasource.Config := fixtures.decoded (fixtures.statusConfig "abc") |}
           (fixtures.statusConfig "abc") []);
    [reflexivity | reflexivity | discriminate].
Defined.

(** X3. A workflow scheme lookup whose id parses to [n] makes one call,
    for scheme [n] and without its draft, whatever the answer; when the
    call returns a scheme, the stored record is the id of the
    configuration with the name and description of that scheme. *)
Theorem WorkflowScheme_lookup :
  forall (d : jira.Client)
         (req : datasource.ReadRequest jiraWorkflowSchemeDataSourceModel.t)
         newState diags workflowSchemeId,
    tfsdk.Get (datasource.Config req) = (newState, diags) ->
    diag.HasError diags = false ->
    strconv.Atoi (types.ValueString (jiraWorkflowSchemeDataSourceModel.ID newState))
    = (workflowSchemeId, None) ->
    calls (events (jiraWorkflowSchemeDataSource.Read d req))
    = [jira.CallWorkflowSchemeGet workflowSchemeId false]
    /\ (forall workflowScheme res,
           jira.Workflow_Scheme_Get d workflowSchemeId false
           = (Some workflowScheme, res, None) ->
           outcome (jiraWorkflowSchemeDataSource.Read d req)
           = Returned
               {| tfsdk.Diagnostics := diag.Append [] diags;
                  tfsdk.State :=
                    Some {| jiraWorkflowSchemeDataSourceModel.ID :=
                              jiraWorkflowSchemeDataSourceModel.ID newState;
                            jiraWorkflowSchemeDataSourceModel.Name :=
                              types.StringValue
                                (models.workflowScheme_Name workflowScheme);
                            jiraWorkflowSchemeDataSourceModel.Description :=
                              types.StringValue
                                (models.workflowScheme_Description workflowScheme)
                         |} |}).
Proof.
  intros d req newState diags workflowSchemeId Hcfg Hdiags Hid.
  unfold jiraWorkflowSchemeDataSource.Read. rewrite Hcfg. cbn.
  rewrite (HasError_decoded _ Hdiags). cbn. rewrite Hid. cbn. split.
  - destruct (jira.Workflow_Scheme_Get d _ _) as [[[workflowScheme|] res] [err|]];
      reflexivity.
  - intros workflowScheme res ->. reflexivity.
Qed.

(** Scheme 10012. *)
Lemma WorkflowScheme_lookup_witness :
  calls (events (jiraWorkflowSchemeDataSource.Read (fixtures.online [])
                   {| datasource.Config :=
                        fixtures.decoded (fixtures.workflowSchemeConfig "10012") |}))
  = [jira.CallWorkflowSchemeGet 10012 false]
  /\ outcome (jiraWorkflowSchemeDataSource.Read (fixtures.online [])
                {| datasource.Config :=
                     fixtures.decoded (fixtures.workflowSchemeConfig "10012") |})
     = Returned
         {| tfsdk.Diagnostics := [];
            tfsdk.State :=
              Some {| jiraWorkflowSchemeDataSourceModel.ID :=
                        types.StringValue "10012";
                      jiraWorkflowSchemeDataSourceModel.Name :=
                        types.StringValue "Default";
                      jiraWorkflowSchemeDataSourceModel.Description :=
                        types.StringValue "Default scheme" |} |}.
Proof.
  destruct (WorkflowScheme_lookup (fixtures.online [])
              {| datasource.Config :=
                   fixtures.decoded (fixtures.workflowSchemeConfig "10012") |}
              (fixtures.workflowSchemeConfig "10012") [] 10012
              eq_refl eq_refl eq_refl) as [Hcalls Hstored].
  split; [exact Hcalls | exact (Hstored _ _ eq_refl)].
Defined.

(** X4. An issue screen lookup whose id parses to [n] makes one call,
    for the screens of id [n], from position 0 and with page length 50,
    whatever the answer. *)
Theorem IssueScreen_one_call :
  forall (d : jira.Client)
         (req : datasource.ReadRequest jiraIssueScreenDataSourceModel.t)
         newState diags issueScreenId,
    tfsdk.Get (datasource.Config req) = (newState, diags) ->
    diag.HasError diags = false ->
    strconv.Atoi (types.ValueString (jiraIssueScreenDataSourceModel.ID newState))
    = (issueScreenId, None) ->
    calls (events (jiraIssueScreenDataSource.Read d req))
    = [jira.CallScreenGets {| models.IDs := [issueScreenId] |} 0 50].
Proof.
  intros d req newState diags issueScreenId Hcfg Hdiags Hid.
  unfold jiraIssueScreenDataSource.Read. rewrite Hcfg. cbn.
  rewrite (HasError_decoded _ Hdiags). cbn. rewrite Hid. cbn.
  destruct (jira.Screen_Gets d _ _ _) as [[[issueScreen|] res] [err|]];
    try reflexivity.
  cbn. destruct (models.screens_Values issueScreen) as [|[first|] rest];
    reflexivity.
Qed.

(** Screen 10000, against a remote system that lists no screen. *)
Lemma IssueScreen_one_call_witness :
  calls (events (jiraIssueScreenDataSource.Read fixtures.emptyPages
                   {| datasource.Config :=
                        fixtures.decoded (fixtures.issueScreenConfig "10000") |}))
  = [jira.CallScreenGets {| models.IDs := [10000] |} 0 50].
Proof.
  exact (IssueScreen_one_call fixtures.emptyPages
           {| datasource.Config :=
                fixtures.decoded (fixtures.issueScreenConfig "10000") |}
           (fixtures.issueScreenConfig "10000") [] 10000
           eq_refl eq_refl eq_refl).
Defined.

(** X5. The three lookups handle a failed remote call with or without
    a response: the operation returns one error diagnostic, titled
    [Client Error], whose detail is the sentence of the lookup, the
    message of the error, a line feed and the raw body (empty without a
    response); no state is stored and nothing panics. *)
Theorem lookups_handle_remote_errors :
  (forall (d : jira.Client)
          (req : datasource.ReadRequest jiraStatusDataSourceModel.t)
          newState diags status res err,
      tfsdk.Get (datasource.Config req) = (newState, diags) ->
      diag.HasError diags = false ->
      types.ValueString (jiraStatusDataSourceModel.ID newState) <> EmptyString ->
      jira.Workflow_Status_Gets d
        [types.ValueString (jiraStatusDataSourceModel.ID newState)] []
      = (status, res, Some err) ->
      outcome (jiraStatusDataSource.Read d req)
      = Returned
          {| tfsdk.Diagnostics :=
               diag.AddError (diag.Append [] diags) "Client Error"
                 ("Unable to get Jira status, got error: "
                    ++ err ++ LF ++ rawBody res);
             tfsdk.State := None |})
  /\ (forall (d : jira.Client)
             (req : datasource.ReadRequest jiraWorkflowSchemeDataSourceModel.t)
             newState diags workflowSchemeId workflowScheme res err,
         tfsdk.Get (datasource.Config req) = (newState, diags) ->
         diag.HasError diags = false ->
         strconv.Atoi
           (types.ValueString (jiraWorkflowSchemeDataSourceModel.ID newState))
         = (workflowSchemeId, None) ->
         jira.Workflow_Scheme_Get d workflowSchemeId false
         = (workflowScheme, res, Some err) ->
         outcome (jiraWorkflowSchemeDataSource.Read d req)
         = Returned
             {| tfsdk.Diagnostics :=
                  diag.AddError (diag.Append [] diags) "Client Error"
                    ("Unable to get Jira workflow scheme, got error: "
                       ++ err ++ LF ++ rawBody res);
                tfsdk.State := None |})
  /\ (forall (d : jira.Client)
             (req : datasource.ReadRequest jiraIssueScreenDataSourceModel.t)
             newState diags issueScreenId issueScreen res err,
         tfsdk.Get (datasource.Config req) = (newState, diags) ->
         diag.HasError diags = false ->
         strconv.Atoi (types.ValueString (jiraIssueScreenDataSourceModel.ID newState))
         = (issueScreenId, None) ->
         jira.Screen_Gets d {| models.IDs := [issueScreenId] |} 0 50
         = (issueScreen, res, Some err) ->
         outcome (jiraIssueScreenDataSource.Read d req)
         = Returned
             {| tfsdk.Diagnostics :=
                  diag.AddError (diag.Append [] diags) "Client Error"
                    ("Unable to get issue screen, got error: "
                       ++ err ++ LF ++ rawBody res);
                tfsdk.State := None |}).
Proof.
  repeat split.
  - intros d req newState diags status res err Hcfg Hdiags Hid Hcall.
    unfold jiraStatusDataSource.Read. rewrite Hcfg. cbn.
    rewrite (HasError_decoded _ Hdiags). cbn.
    apply String.eqb_neq in Hid. rewrite Hid. cbn. rewrite Hcall. reflexivity.
  - intros d req newState diags n workflowScheme res err Hcfg Hdiags Hid Hcall.
    unfold jiraWorkflowSchemeDataSource.Read. rewrite Hcfg. cbn.
    rewrite (HasError_decoded _ Hdiags). cbn. rewrite Hid. cbn.
    rewrite Hcall. reflexivity.
  - intros d req newState diags n issueScreen res err Hcfg Hdiags Hid Hcall.
    unfold jiraIssueScreenDataSource.Read. rewrite Hcfg. cbn.
    rewrite (HasError_decoded _ Hdiags). cbn. rewrite Hid. cbn.
    rewrite Hcall. reflexivity.
Qed.

(** The three lookups against a remote system that cannot be reached. *)
Lemma lookups_handle_remote_errors_witness :
  outcome (jiraStatusDataSource.Read fixtures.offline
             {| datasource.Config :=
                  fixtures.decoded (fixtures.statusConfig "10001") |})
  = Returned
      {| tfsdk.Diagnostics :=
           [diag.NewErrorDiagnostic "Client Error"
              ("Unable to get Jira status, got error: connection refused" ++ LF)];
         tfsdk.State := None |}
  /\ outcome (jiraWorkflowSchemeDataSource.Read fixtures.offline
                {| datasource.Config :=
                     fixtures.decoded (fixtures.workflowSchemeConfig "10012") |})
     = Returned
         {| tfsdk.Diagnostics :=
              [diag.NewErrorDiagnostic "Client Error"
                 ("Unable to get Jira workflow scheme, got error: connection refused"
                    ++ LF)];
            tfsdk.State := None |}
  /\ outcome (jiraIssueScreenDataSource.Read fixtures.offline
                {| datasource.Config :=
                     fixtures.decoded (fixtures.issueScreenConfig "10000") |})
     = Returned
         {| tfsdk.Diagnostics :=
              [diag.NewErrorDiagnostic "Client Error"
                 ("Unable to get issue screen, got error: connection refused" ++ LF)];
            tfsdk.State := None |}.
Proof.
  destruct lookups_handle_remote_errors as (Hstatus & Hworkflow & Hscreen).
  split; [|split].
  - apply (Hstatus fixtures.offline
             {| datasource.Config :=
                  fixtures.decoded (fixtures.statusConfig "10001") |}
             (fixtures.statusConfig "10001") [] [] None "connection refused");
      [reflexivity | reflexivity | discriminate | reflexivity].
  - exact (Hworkflow fixtures.offline
             {| datasource.Config :=
                  fixtures.decoded (fixtures.workflowSchemeConfig "10012") |}
             (fixtures.workflowSchemeConfig "10012") [] 10012 None None
             "connection refused" eq_refl eq_refl eq_refl eq_refl).
  - exact (Hscreen fixtures.offline
             {| datasource.Config :=
                  fixtures.decoded (fixtures.issueScreenConfig "10000") |}
             (fixtures.issueScreenConfig "10000") [] 10000 None None
             "connection refused" eq_refl eq_refl eq_refl eq_refl).
Defined.

(** ** All handlers *)

(** The response keeps the error of a decoding. *)
Lemma HasError_undecoded (diags : diag.Diagnostics) :
  diag.HasError diags = true -> diag.HasError (diag.Append [] diags) = true.
Proof. intros H. rewrite HasError_Append, H. reflexivity. Qed.

(** X6. An operation whose request does not decode (its configuration,
    plan or state reports an error) stops there: it returns the
    diagnostics of the decoding, stores no state and makes no remote
    call.  For an update this holds for the plan, and for the state once
    the plan has decoded. *)
Theorem undecoded_request_stops :
  forall (url_Parse : string -> option url.URL) (j : jira.Client),
    (forall (req : datasource.ReadRequest jiraStatusDataSourceModel.t) m diags,
        tfsdk.Get (datasource.Config req) = (m, diags) ->
        diag.HasError diags = true ->
        stopsAtDecoding "Reading status data source" diags
          (jiraStatusDataSource.Read j req))
    /\ (forall (req : datasource.ReadRequest jiraWorkflowSchemeDataSourceModel.t)
               m diags,
           tfsdk.Get (datasource.Config req) = (m, diags) ->
           diag.HasError diags = true ->
           stopsAtDecoding "Reading workflow scheme data source" diags
             (jiraWorkflowSchemeDataSource.Read j req))
    /\ (forall (req : datasource.ReadRequest jiraIssueScreenDataSourceModel.t)
               m diags,
           tfsdk.Get (datasource.Config req) = (m, diags) ->
           diag.HasError diags = true ->
           stopsAtDecoding "Reading issue screen data source" diags
             (jiraIssueScreenDataSource.Read j req))
    /\ (forall (req : resource.CreateRequest jiraProjectResourceModel.t) m diags,
           tfsdk.Get (resource.create_Plan req) = (m, diags) ->
           diag.HasError diags = true ->
           stopsAtDecoding "Creating project" diags
             (jiraProjectResource.Create j req))
    /\ (forall (req : resource.ReadRequest jiraProjectResourceModel.t) m diags,
           tfsdk.Get (resource.read_State req) = (m, diags) ->
           diag.HasError diags = true ->
           stopsAtDecoding "Reading project resource" diags
             (jiraProjectResource.Read url_Parse j req))
    /\ (forall (req : resource.UpdateRequest jiraProjectResourceModel.t) m diags,
           tfsdk.Get (resource.update_Plan req) = (m, diags) ->
           diag.HasError diags = true ->
           stopsAtDecoding "Updating project resource" diags
             (jiraProjectResource.Update url_Parse j req))
    /\ (forall (req : resource.UpdateRequest jiraProjectResourceModel.t)
               plan planDiags state stateDiags,
           tfsdk.Get (resource.update_Plan req) = (plan, planDiags) ->
           diag.HasError planDiags = false ->
           tfsdk.Get (resource.update_State req) = (state, stateDiags) ->
           diag.HasError stateDiags = true ->
           jiraProjectResource.Update url_Parse j req
           = ([Log Debug "Updating project resource";
               Log Debug "Loaded project plan"],
              Returned
                {| tfsdk.Diagnostics :=
                     diag.Append (diag.Append [] planDiags) stateDiags;
                   tfsdk.State := None |}))
    /\ (forall (req : resource.DeleteRequest jiraProjectResourceModel.t) m diags,
           tfsdk.Get (resource.delete_State req) = (m, diags) ->
           diag.HasError diags = true ->
           stopsAtDecoding "Deleting project resource" diags
             (jiraProjectResource.Delete j req)).
Proof.
  intros url_Parse j. unfold stopsAtDecoding.
  repeat split; intros req m diags Hget Herr.
  - unfold jiraStatusDataSource.Read. rewrite Hget. cbn.
    now rewrite (HasError_undecoded _ Herr).
  - unfold jiraWorkflowSchemeDataSource.Read. rewrite Hget. cbn.
    now rewrite (HasError_undecoded _ Herr).
  - unfold jiraIssueScreenDataSource.Read. rewrite Hget. cbn.
    now rewrite (HasError_undecoded _ Herr).
  - unfold jiraProjectResource.Create. rewrite Hget. cbn.
    now rewrite (HasError_undecoded _ Herr).
  - unfold jiraProjectResource.Read. rewrite Hget. cbn.
    now rewrite (HasError_undecoded _ Herr).
  - unfold jiraProjectResource.Update. rewrite Hget. cbn.
    now rewrite (HasError_undecoded _ Herr).
  - rename m into plan, diags into planDiags, Hget into state, Herr into stateDiags.
    intros Hplan HplanDiags Hstate HstateDiags.
    unfold jiraProjectResource.Update. rewrite Hplan. cbn.
    rewrite (HasError_decoded _ HplanDiags). cbn. rewrite Hstate. cbn.
    rewrite HasError_Append, HstateDiags, orb_true_r. reflexivity.
  - unfold jiraProjectResource.Delete. rewrite Hget. cbn.
    now rewrite (HasError_undecoded _ Herr).
Qed.

(** Requests whose configuration, plan or state reports a conversion
    error. *)
Lemma undecoded_request_stops_witness :
  stopsAtDecoding "Reading status data source"
    (snd (tfsdk.Get (fixtures.undecoded (fixtures.statusConfig "10001"))))
    (jiraStatusDataSource.Read (fixtures.online [])
       {| datasource.Config := fixtures.undecoded (fixtures.statusConfig "10001") |})
  /\ stopsAtDecoding "Reading workflow scheme data source"
       (snd (tfsdk.Get (fixtures.undecoded (fixtures.workflowSchemeConfig "10012"))))
       (jiraWorkflowSchemeDataSource.Read (fixtures.online [])
          {| datasource.Config :=
               fixtures.undecoded (fixtures.workflowSchemeConfig "10012") |})
  /\ stopsAtDecoding "Reading issue screen data source"
       (snd (tfsdk.Get (fixtures.undecoded (fixtures.issueScreenConfig "10000"))))
       (jiraIssueScreenDataSource.Read (fixtures.online [])
          {| datasource.Config :=
               fixtures.undecoded (fixtures.issueScreenConfig "10000") |})
  /\ stopsAtDecoding "Creating project"
       (snd (tfsdk.Get (fixtures.undecoded fixtures.plan)))
       (jiraProjectResource.Create (fixtures.online [])
          {| resource.create_Plan := fixtures.undecoded fixtures.plan |})
  /\ stopsAtDecoding "Reading project resource"
       (snd (tfsdk.Get (fixtures.undecoded (fixtures.state "10001"))))
       (jiraProjectResource.Read fixtures.url_Parse (fixtures.online [])
          {| resource.read_State := fixtures.undecoded (fixtures.state "10001") |})
  /\ stopsAtDecoding "Updating project resource"
       (snd (tfsdk.Get (fixtures.undecoded fixtures.plan)))
       (jiraProjectResource.Update fixtures.url_Parse (fixtures.online [])
          {| resource.update_Plan := fixtures.undecoded fixtures.plan;
             resource.update_State := fixtures.decoded (fixtures.state "10001") |})
  /\ calls (events
              (jiraProjectResource.Update fixtures.url_Parse (fixtures.online [])
                 {| resource.update_Plan := fixtures.decoded fixtures.plan;
                    resource.update_State :=
                      fixtures.undecoded (fixtures.state "10001") |}))
     = []
  /\ stopsAtDecoding "Deleting project resource"
       (snd (tfsdk.Get (fixtures.undecoded (fixtures.state "10001"))))
       (jiraProjectResource.Delete (fixtures.online [])
          {| resource.delete_State := fixtures.undecoded (fixtures.state "10001") |}).
Proof.
  destruct (undecoded_request_stops fixtures.url_Parse (fixtures.online []))
    as (Hstatus & Hworkflow & Hscreen & Hcreate & Hread & Hplan & Hstate & Hdelete).
  split; [eapply Hstatus; reflexivity|].
  split; [eapply Hworkflow; reflexivity|].
  split; [eapply Hscreen; reflexivity|].
  split; [eapply Hcreate; reflexivity|].
  split; [eapply Hread; reflexivity|].
  split; [eapply Hplan; reflexivity|].
  split; [|eapply Hdelete; reflexivity].
  rewrite (Hstate {| resource.update_Plan := fixtures.decoded fixtures.plan;
                     resource.update_State :=
                       fixtures.undecoded (fixtures.state "10001") |}
             fixtures.plan [] (fixtures.state "10001")
             (snd (tfsdk.Get (fixtures.undecoded (fixtures.state "10001"))))
             eq_refl eq_refl eq_refl eq_refl).
  reflexivity.
Defined.

(** X7. No operation repeats a remote call or makes more than its
    sequence has: a lookup, a create and a delete make at most one call,
    a read and an update at most two, whatever the request and whatever
    the remote system answers. *)
Theorem remote_calls_bounded :
  forall (url_Parse : string -> option url.URL) (j : jira.Client),
    (forall req,
        (List.length (calls (events (jiraStatusDataSource.Read j req))) <= 1)%nat)
    /\ (forall req,
           (List.length (calls (events (jiraWorkflowSchemeDataSource.Read j req)))
            <= 1)%nat)
    /\ (forall req,
           (List.length (calls (events (jiraIssueScreenDataSource.Read j req)))
            <= 1)%nat)
    /\ (forall req,
           (List.length (calls (events (jiraProjectResource.Create j req)))
            <= 1)%nat)
    /\ (forall req,
           (List.length (calls (events (jiraProjectResource.Read url_Parse j req)))
            <= 2)%nat)
    /\ (forall req,
           (List.length (calls (events (jiraProjectResource.Update url_Parse j req)))
            <= 2)%nat)
    /\ (forall req,
           (List.length (calls (events (jiraProjectResource.Delete j req)))
            <= 1)%nat).
Proof.
  intros url_Parse j. repeat split; intros req.
  - unfold jiraStatusDataSource.Read.
    destruct (tfsdk.Get (datasource.Config req)) as [newState diags]. cbn.
    destruct (diag.HasError (diag.Append [] diags)); cbn; [lia|].
    destruct (String.eqb _ EmptyString); cbn; [lia|].
    destruct (jira.Workflow_Status_Gets j _ _) as [[status res] [err|]]; cbn;
      [lia|].
    destruct status as [|[first|] rest]; unfold index, nth_error; cbn; lia.
  - unfold jiraWorkflowSchemeDataSource.Read.
    destruct (tfsdk.Get (datasource.Config req)) as [newState diags]. cbn.
    destruct (diag.HasError (diag.Append [] diags)); cbn; [lia|].
    destruct (strconv.Atoi _) as [n [e|]]; cbn; [lia|].
    destruct (jira.Workflow_Scheme_Get j _ _) as [[[workflowScheme|] res] [err|]];
      cbn; lia.
  - unfold jiraIssueScreenDataSource.Read.
    destruct (tfsdk.Get (datasource.Config req)) as [newState diags]. cbn.
    destruct (diag.HasError (diag.Append [] diags)); cbn; [lia|].
    destruct (strconv.Atoi _) as [n [e|]]; cbn; [lia|].
    destruct (jira.Screen_Gets j _ _ _) as [[[issueScreen|] res] [err|]];
      cbn; try lia.
    destruct (models.screens_Values issueScreen) as [|[first|] rest];
      unfold index, nth_error; cbn; lia.
  - unfold jiraProjectResource.Create.
    destruct (tfsdk.Get (resource.create_Plan req)) as [plan diags]. cbn.
    destruct (diag.HasError (diag.Append [] diags)); cbn; [lia|].
    destruct (jira.Project_Create j _) as [[[returnedProject|] res] [err|]];
      cbn; lia.
  - destruct (Read_calls url_Parse j req) as [Hrun|[Hrun|Hrun]];
      rewrite Hrun; cbn; lia.
  - unfold jiraProjectResource.Update.
    destruct (tfsdk.Get (resource.update_Plan req)) as [plan planDiags]. cbn.
    destruct (diag.HasError (diag.Append [] planDiags)); cbn; [lia|].
    destruct (tfsdk.Get (resource.update_State req)) as [state stateDiags]. cbn.
    destruct (diag.HasError (diag.Append _ stateDiags)); cbn; [lia|].
    destruct (jira.Project_Update j _ _) as [[[returnedProject|] [res|]] [err|]];
      cbn; try lia;
      (destruct (jira.Issue_Type_Scheme_Assign j _ _) as [[response|] [err|]];
       cbn; try lia;
       pose proof (avatarIDOf_events url_Parse returnedProject) as Hno;
       destruct (jiraProjectResource.avatarIDOf url_Parse returnedProject)
         as [evs [avatarID|p]];
       cbn in Hno; subst evs; cbn; try lia;
       destruct (models.Lead returnedProject); cbn; lia).
  - unfold jiraProjectResource.Delete.
    destruct (tfsdk.Get (resource.delete_State req)) as [state diags]. cbn.
    destruct (diag.HasError (diag.Append [] diags)); cbn; [lia|].
    destruct (jira.Project_Delete j _ _) as [[res|] [err|]]; cbn; lia.
Qed.

(** ** Read of a project *)

(** The scan of the associations acts on every state alike: it panics,
    or leaves the state as it is, or assigns the scheme of one returned
    association whose membership list is longer than the project id. *)
Lemma rangeValues_shape :
  forall (Values : list (option models.IssueTypeSchemeProjectsScheme))
         (projectIDInt : Z),
  exists evs,
    (exists p, forall state,
        jiraProjectResource.rangeValues Values projectIDInt state
        = (evs, Panicked p))
    \/ (forall state,
           jiraProjectResource.rangeValues Values projectIDInt state
           = (evs, Returned state))
    \/ (exists issueTypeScheme scheme,
           In (Some issueTypeScheme) Values
           /\ models.IssueTypeScheme issueTypeScheme = Some scheme
           /\ 0 <= projectIDInt
              < Z.of_nat (List.length (models.ProjectIds issueTypeScheme))
           /\ forall state,
               jiraProjectResource.rangeValues Values projectIDInt state
               = (evs, Returned
                         (jiraProjectResourceModel.set_IssueTypeScheme
                            (schemeValue scheme) state))).
Proof.
  intros Values projectIDInt.
  induction Values as [|[issueTypeScheme|] rest IH].
  - exists []. right. left. reflexivity.
  - destruct (models.IssueTypeScheme issueTypeScheme) as [scheme|] eqn:Hscheme.
    + destruct IH as (evs & [(p & Hpanic)|[Hsame|(a & sch & Hin & Hsch & Hlen & Hset)]]).
      * exists (Log Info (models.scheme_Name scheme) :: evs). left. exists p.
        intros state. cbn. rewrite Hscheme. cbn. rewrite Hpanic. reflexivity.
      * exists (Log Info (models.scheme_Name scheme) :: evs).
        destruct ((0 <=? projectIDInt)
                  && (projectIDInt
                      <? 0 + Z.of_nat
                               (List.length (models.ProjectIds issueTypeScheme))))%bool
          eqn:Hcond.
        -- right. right. exists issueTypeScheme, scheme.
           split; [left; reflexivity|]. split; [exact Hscheme|].
           split; [lia|].
           intros state. cbn. rewrite Hscheme. cbn.
           rewrite Hsame, rangeProjectIds_index, Hcond. reflexivity.
        -- right. left. intros state. cbn. rewrite Hscheme. cbn.
           rewrite Hsame, rangeProjectIds_index, Hcond. reflexivity.
      * exists (Log Info (models.scheme_Name scheme) :: evs).
        right. right. exists a, sch.
        split; [right; exact Hin|]. split; [exact Hsch|]. split; [exact Hlen|].
        intros state. cbn. rewrite Hscheme. cbn.
        rewrite Hset, rangeProjectIds_index.
        destruct (_ && _)%bool; reflexivity.
    + exists []. left. exists NilPointerDereference.
      intros state. cbn. rewrite Hscheme. reflexivity.
  - exists []. left. exists NilPointerDereference. reflexivity.
Qed.

Section ReadRuns.

Import jiraProjectResourceModel.

Variable url_Parse : string -> option url.URL.
Variable r : jira.Client.
Variable req : resource.ReadRequest t.
Variable state : t.
Variable diags : diag.Diagnostics.
Hypothesis Hstate : tfsdk.Get (resource.read_State req) = (state, diags).

Let projectID : string := types.ValueString (ID state).
Let projectIDInt : Z := fst (strconv.Atoi projectID).

(** A read that succeeds has gone through both calls and the scan. *)
Lemma Read_success_inv :
  forall resp stored,
    outcome (jiraProjectResource.Read url_Parse r req) = Returned resp ->
    tfsdk.State resp = Some stored ->
    exists project res lead avatarID issueTypesSchemes res' evs,
      diag.HasError diags = false
      /\ tfsdk.Diagnostics resp = diag.Append [] diags
      /\ jira.Project_Get r projectID [] = (Some project, res, None)
      /\ models.Lead project = Some lead
      /\ jiraProjectResource.avatarIDOf url_Parse project = ([], Returned avatarID)
      /\ jira.Issue_Type_Scheme_Projects r [projectIDInt] 0 1
         = (Some issueTypesSchemes, res', None)
      /\ jiraProjectResource.rangeValues (models.Values issueTypesSchemes)
           projectIDInt (readBase project avatarID lead state)
         = (evs, Returned stored).
Proof.
  intros resp stored. unfold jiraProjectResource.Read. rewrite Hstate. cbn.
  destruct (diag.HasError (diag.Append [] diags)) eqn:Herr; [no_stored_state|].
  cbn. fold projectID.
  destruct (jira.Project_Get r projectID [])
    as [[[project|] res] [err|]] eqn:Hget; try no_stored_state.
  cbn. pose proof (avatarIDOf_events url_Parse project) as Hno.
  destruct (jiraProjectResource.avatarIDOf url_Parse project)
    as [evs0 [avatarID|p]] eqn:Havatar; cbn in Hno; subst evs0;
    [|no_stored_state].
  cbn. destruct (models.Lead project) as [lead|] eqn:Hlead; [|no_stored_state].
  cbn. subst projectIDInt.
  destruct (strconv.Atoi projectID) as [n e] eqn:Hatoi. cbn.
  destruct (jira.Issue_Type_Scheme_Projects r [n] 0 1)
    as [[[issueTypesSchemes|] res'] [err|]] eqn:Hprojects; try no_stored_state.
  cbn.
  destruct (jiraProjectResource.rangeValues (models.Values issueTypesSchemes) n _)
    as [evs [stored'|p]] eqn:Hrange; [|no_stored_state].
  cbn. intros [= <-]. cbn. intros [= <-].
  exists project, res, lead, avatarID, issueTypesSchemes, res', evs.
  rewrite HasError_Append in Herr. cbn in Herr.
  repeat split; try assumption; try reflexivity.
Qed.

(** The run of a read whose calls succeed and whose scan returns. *)
Lemma Read_run :
  forall project res lead avatarID issueTypesSchemes res' evs stored,
    diag.HasError diags = false ->
    jira.Project_Get r projectID [] = (Some project, res, None) ->
    models.Lead project = Some lead ->
    jiraProjectResource.avatarIDOf url_Parse project = ([], Returned avatarID) ->
    jira.Issue_Type_Scheme_Projects r [projectIDInt] 0 1
    = (Some issueTypesSchemes, res', None) ->
    jiraProjectResource.rangeValues (models.Values issueTypesSchemes)
      projectIDInt (readBase project avatarID lead state)
    = (evs, Returned stored) ->
    outcome (jiraProjectResource.Read url_Parse r req)
    = Returned {| tfsdk.Diagnostics := diag.Append [] diags;
                  tfsdk.State := Some stored |}.
Proof.
  intros project res lead avatarID issueTypesSchemes res' evs stored
    Hdiags Hget Hlead Havatar Hprojects Hrange.
  unfold jiraProjectResource.Read. rewrite Hstate. cbn.
  rewrite (HasError_decoded _ Hdiags). cbn. fold projectID. rewrite Hget. cbn.
  rewrite Havatar. cbn. rewrite Hlead. cbn.
  subst projectIDInt. destruct (strconv.Atoi projectID) as [n e]. cbn in *.
  rewrite Hprojects. cbn.
  change (jiraProjectResource.rangeValues (models.Values issueTypesSchemes) n _)
    with (jiraProjectResource.rangeValues (models.Values issueTypesSchemes) n
            (readBase project avatarID lead state)).
  rewrite Hrange. reflexivity.
Qed.

End ReadRuns.

(** X8. A read that succeeds stores the id, key, name, description,
    project type key and url of the project the remote system returned,
    the account id of its lead and the avatar id parsed from its avatar
    URL; the field configuration scheme, the issue type screen scheme
    and the workflow scheme are those of the prior state; the issue type
    scheme is that of the prior state or the id of the scheme of one of
    the returned associations. *)
Theorem Read_stores_project_and_keeps_schemes :
  forall (url_Parse : string -> option url.URL) (r : jira.Client)
         (req : resource.ReadRequest jiraProjectResourceModel.t)
         (state : jiraProjectResourceModel.t) (diags : diag.Diagnostics)
         (resp : tfsdk.Response jiraProjectResourceModel.t)
         (stored : jiraProjectResourceModel.t),
    tfsdk.Get (resource.read_State req) = (state, diags) ->
    outcome (jiraProjectResource.Read url_Parse r req) = Returned resp ->
    tfsdk.State resp = Some stored ->
    exists project res lead avatarID,
      jira.Project_Get r (types.ValueString (jiraProjectResourceModel.ID state)) []
      = (Some project, res, None)
      /\ models.Lead project = Some lead
      /\ outcome (jiraProjectResource.avatarIDOf url_Parse project)
         = Returned avatarID
      /\ (stored = readBase project avatarID lead state
          \/ exists issueTypesSchemes res' issueTypeScheme scheme,
              jira.Issue_Type_Scheme_Projects r
                [fst (strconv.Atoi
                        (types.ValueString (jiraProjectResourceModel.ID state)))]
                0 1
              = (Some issueTypesSchemes, res', None)
              /\ In (Some issueTypeScheme) (models.Values issueTypesSchemes)
              /\ models.IssueTypeScheme issueTypeScheme = Some scheme
              /\ stored
                 = jiraProjectResourceModel.set_IssueTypeScheme
                     (schemeValue scheme) (readBase project avatarID lead state)).
Proof.
  intros url_Parse r req state diags resp stored Hstate Hout Hstored.
  destruct (Read_success_inv url_Parse r req state diags Hstate resp stored
              Hout Hstored)
    as (project & res & lead & avatarID & page & res' & evs
        & _ & _ & Hget & Hlead & Havatar & Hprojects & Hrange).
  exists project, res, lead, avatarID.
  split; [exact Hget|]. split; [exact Hlead|].
  split; [now rewrite Havatar|].
  destruct (rangeValues_shape (models.Values page)
              (fst (strconv.Atoi
                      (types.ValueString (jiraProjectResourceModel.ID state)))))
    as (evs' & [(p & Hpanic)|[Hsame|(a & sch & Hin & Hsch & _ & Hset)]]).
  - rewrite Hpanic in Hrange. discriminate Hrange.
  - rewrite Hsame in Hrange. left. now injection Hrange as _ <-.
  - rewrite Hset in Hrange. right. exists page, res', a, sch.
    repeat split; try assumption. now injection Hrange as _ <-.
Qed.

(** The read of project 10001, whose prior state has the field
    configuration scheme 10010. *)
Lemma Read_stores_project_and_keeps_schemes_witness :
  exists project res lead avatarID,
    jira.Project_Get (fixtures.online [fixtures.association ["10001"]]) "10001" []
    = (Some project, res, None)
    /\ models.Lead project = Some lead
    /\ outcome (jiraProjectResource.avatarIDOf fixtures.url_Parse project)
       = Returned avatarID
    /\ (readBase fixtures.project 10425
          {| models.AccountID := "5b10a2844c20165700ede21g" |}
          (fixtures.state "10001")
        = readBase project avatarID lead (fixtures.state "10001")
        \/ exists issueTypesSchemes res' issueTypeScheme scheme,
            jira.Issue_Type_Scheme_Projects
              (fixtures.online [fixtures.association ["10001"]]) [10001] 0 1
            = (Some issueTypesSchemes, res', None)
            /\ In (Some issueTypeScheme) (models.Values issueTypesSchemes)
            /\ models.IssueTypeScheme issueTypeScheme = Some scheme
            /\ readBase fixtures.project 10425
                 {| models.AccountID := "5b10a2844c20165700ede21g" |}
                 (fixtures.state "10001")
               = jiraProjectResourceModel.set_IssueTypeScheme
                   (schemeValue scheme)
                   (readBase project avatarID lead (fixtures.state "10001"))).
Proof.
  exact (Read_stores_project_and_keeps_schemes fixtures.url_Parse
           (fixtures.online [fixtures.association ["10001"]])
           {| resource.read_State := fixtures.decoded (fixtures.state "10001") |}
           (fixtures.state "10001") []
           {| tfsdk.Diagnostics := [];
              tfsdk.State :=
                Some (readBase fixtures.project 10425
                        {| models.AccountID := "5b10a2844c20165700ede21g" |}
                        (fixtures.state "10001")) |}
           (readBase fixtures.project 10425
              {| models.AccountID := "5b10a2844c20165700ede21g" |}
              (fixtures.state "10001"))
           eq_refl eq_refl eq_refl).
Defined.

(** X9. Reading twice gives the same state.  When a read has succeeded
    and the project returned carries the id that was asked for, a second
    read of the stored state against the same remote system succeeds and
    stores that state again. *)
Theorem Read_idempotent :
  forall (url_Parse : string -> option url.URL) (r : jira.Client)
         (req req' : resource.ReadRequest jiraProjectResourceModel.t)
         (state stored : jiraProjectResourceModel.t)
         (diags diags' : diag.Diagnostics)
         (resp : tfsdk.Response jiraProjectResourceModel.t),
    tfsdk.Get (resource.read_State req) = (state, diags) ->
    outcome (jiraProjectResource.Read url_Parse r req) = Returned resp ->
    tfsdk.State resp = Some stored ->
    types.ValueString (jiraProjectResourceModel.ID stored)
    = types.ValueString (jiraProjectResourceModel.ID state) ->
    tfsdk.Get (resource.read_State req') = (stored, diags') ->
    diag.HasError diags' = false ->
    outcome (jiraProjectResource.Read url_Parse r req')
    = Returned {| tfsdk.Diagnostics := diag.Append [] diags';
                  tfsdk.State := Some stored |}.
Proof.
  intros url_Parse r req req' state stored diags diags' resp
    Hstate Hout Hstored Hid Hstate' Hdiags'.
  destruct (Read_success_inv url_Parse r req state diags Hstate resp stored
              Hout Hstored)
    as (project & res & lead & avatarID & page & res' & evs
        & _ & _ & Hget & Hlead & Havatar & Hprojects & Hrange).
  rewrite <- Hid in Hget, Hprojects, Hrange.
  apply (Read_run url_Parse r req' stored diags' Hstate'
           project res lead avatarID page res' evs stored
           Hdiags' Hget Hlead Havatar Hprojects).
  destruct (rangeValues_shape (models.Values page)
              (fst (strconv.Atoi
                      (types.ValueString (jiraProjectResourceModel.ID stored)))))
    as (evs' & [(p & Hpanic)|[Hsame|(a & sch & _ & _ & _ & Hset)]]).
  - rewrite Hpanic in Hrange. discriminate Hrange.
  - rewrite Hsame in Hrange |- *. injection Hrange as <- <-. reflexivity.
  - rewrite Hset in Hrange |- *. injection Hrange as <- <-. reflexivity.
Qed.

(** Project 10001, read twice against a remote system that returns one
    association. *)
Lemma Read_idempotent_witness :
  outcome (jiraProjectResource.Read fixtures.url_Parse
             (fixtures.online [fixtures.association ["10001"]])
             {| resource.read_State :=
                  fixtures.decoded
                    (readBase fixtures.project 10425
                       {| models.AccountID := "5b10a2844c20165700ede21g" |}
                       (fixtures.state "10001")) |})
  = Returned
      {| tfsdk.Diagnostics := [];
         tfsdk.State :=
           Some (readBase fixtures.project 10425
                   {| models.AccountID := "5b10a2844c20165700ede21g" |}
                   (fixtures.state "10001")) |}.
Proof.
  exact (Read_idempotent fixtures.url_Parse
           (fixtures.online [fixtures.association ["10001"]])
           {| resource.read_State := fixtures.decoded (fixtures.state "10001") |}
           {| resource.read_State :=
                fixtures.decoded
                  (readBase fixtures.project 10425
                     {| models.AccountID := "5b10a2844c20165700ede21g" |}
                     (fixtures.state "10001")) |}
           (fixtures.state "10001")
           (readBase fixtures.project 10425
              {| models.AccountID := "5b10a2844c20165700ede21g" |}
              (fixtures.state "10001"))
           [] []
           {| tfsdk.Diagnostics := [];
              tfsdk.State :=
                Some (readBase fixtures.project 10425
                        {| models.AccountID := "5b10a2844c20165700ede21g" |}
                        (fixtures.state "10001")) |}
           eq_refl eq_refl eq_refl eq_refl eq_refl eq_refl).
Defined.

(** Splitting gives one piece more than there are separators. *)
Lemma Split_length (sep : ascii) (s : string) :
  List.length (strings.Split s sep) = S (occurrences sep s).
Proof.
  induction s as [|c rest IH]; [reflexivity|].
  change (strings.Split (String c rest) sep)
    with (if Ascii.eqb c sep then EmptyString :: strings.Split rest sep
          else match strings.Split rest sep with
               | piece :: pieces => String c piece :: pieces
               | [] => [String c EmptyString]
               end).
  change (occurrences sep (String c rest))
    with (if Ascii.eqb c sep then S (occurrences sep rest)
          else occurrences sep rest).
  destruct (Ascii.eqb c sep); [cbn [List.length]; now rewrite IH|].
  destruct (strings.Split rest sep) as [|piece pieces]; [discriminate IH|].
  exact IH.
Qed.

(** X10. The avatar id is read at a fixed position of the path of the
    avatar URL.  When the project lookup succeeds and that path has
    fewer than nine slashes, the read ends in the index out of range
    panic (index 9, length one more than the number of slashes) after
    its first call: no state, no diagnostic, no second call. *)
Theorem Read_short_avatar_path_panics :
  forall (url_Parse : string -> option url.URL) (r : jira.Client)
         (req : resource.ReadRequest jiraProjectResourceModel.t)
         state diags project res avatarUrls avatarUrl,
    tfsdk.Get (resource.read_State req) = (state, diags) ->
    diag.HasError diags = false ->
    jira.Project_Get r (types.ValueString (jiraProjectResourceModel.ID state)) []
    = (Some project, res, None) ->
    models.AvatarUrls project = Some avatarUrls ->
    url_Parse (models.One6X16 avatarUrls) = Some avatarUrl ->
    (occurrences "/" (url.Path avatarUrl) < 9)%nat ->
    jiraProjectResource.Read url_Parse r req
    = ([Log Debug "Reading project resource";
        Log Debug "Loaded project from state";
        Remote (jira.CallProjectGet
                  (types.ValueString (jiraProjectResourceModel.ID state)) []);
        Log Debug "Retrieved project from API state"],
       Panicked (IndexOutOfRange 9 (S (occurrences "/" (url.Path avatarUrl))))).
Proof.
  intros url_Parse r req state diags project res avatarUrls avatarUrl
    Hstate Hdiags Hget Havatar Hparse Hshort.
  assert (jiraProjectResource.avatarIDOf url_Parse project
          = ([], Panicked
                   (IndexOutOfRange 9 (S (occurrences "/" (url.Path avatarUrl))))))
    as Hpanic.
  { unfold jiraProjectResource.avatarIDOf, index.
    rewrite Havatar. cbn. rewrite Hparse. cbn.
    destruct (nth_error (strings.Split (url.Path avatarUrl) "/") 9) eqn:Hnth.
    - assert (nth_error (strings.Split (url.Path avatarUrl) "/") 9 <> None)
        as Hsome by congruence.
      apply nth_error_Some in Hsome. rewrite Split_length in Hsome. lia.
    - cbn. now rewrite Split_length. }
  unfold jiraProjectResource.Read. rewrite Hstate. cbn.
  rewrite (HasError_decoded _ Hdiags). cbn. rewrite Hget. cbn.
  rewrite Hpanic. reflexivity.
Qed.

(** Project 10001 with an avatar URL whose path is
    [/secure/projectavatar]: index 9 of 3 segments. *)
Lemma Read_short_avatar_path_panics_witness :
  jiraProjectResource.Read fixtures.url_Parse
    (fixtures.serving
       (fixtures.projectWith
          (Some {| models.One6X16 := fixtures.queryAvatarURL |})
          (models.Lead fixtures.project)))
    {| resource.read_State := fixtures.decoded (fixtures.state "10001") |}
  = ([Log Debug "Reading project resource";
      Log Debug "Loaded project from state";
      Remote (jira.CallProjectGet "10001" []);
      Log Debug "Retrieved project from API state"],
     Panicked (IndexOutOfRange 9 3)).
Proof.
  apply (Read_short_avatar_path_panics fixtures.url_Parse
           (fixtures.serving
              (fixtures.projectWith
                 (Some {| models.One6X16 := fixtures.queryAvatarURL |})
                 (models.Lead fixtures.project)))
           {| resource.read_State := fixtures.decoded (fixtures.state "10001") |}
           (fixtures.state "10001") []
           (fixtures.projectWith
              (Some {| models.One6X16 := fixtures.queryAvatarURL |})
              (models.Lead fixtures.project))
           fixtures.success
           {| models.One6X16 := fixtures.queryAvatarURL |}
           {| url.Path := "/secure/projectavatar" |});
    try reflexivity.
  cbn. apply le_S, le_S, le_S, le_S, le_S, le_S, le_n.
Defined.

(** X11. The read takes the avatar URLs and the lead of the returned
    project unchecked: a project without avatar URLs, or one with a
    readable avatar and without a lead, ends the read in the nil
    pointer panic. *)
Theorem Read_incomplete_project_panics :
  forall (url_Parse : string -> option url.URL) (r : jira.Client)
         (req : resource.ReadRequest jiraProjectResourceModel.t)
         state diags project res,
    tfsdk.Get (resource.read_State req) = (state, diags) ->
    diag.HasError diags = false ->
    jira.Project_Get r (types.ValueString (jiraProjectResourceModel.ID state)) []
    = (Some project, res, None) ->
    models.AvatarUrls project = None
    \/ (exists avatarID,
           outcome (jiraProjectResource.avatarIDOf url_Parse project)
           = Returned avatarID)
       /\ models.Lead project = None ->
    outcome (jiraProjectResource.Read url_Parse r req)
    = Panicked NilPointerDereference.
Proof.
  intros url_Parse r req state diags project res Hstate Hdiags Hget Hmissing.
  unfold jiraProjectResource.Read. rewrite Hstate. cbn.
  rewrite (HasError_decoded _ Hdiags). cbn. rewrite Hget. cbn.
  destruct Hmissing as [Havatar|[(avatarID & Havatar) Hlead]].
  - unfold jiraProjectResource.avatarIDOf. rewrite Havatar. reflexivity.
  - pose proof (avatarIDOf_events url_Parse project) as Hno.
    destruct (jiraProjectResource.avatarIDOf url_Parse project) as [evs out].
    cbn in Hno, Havatar. subst evs out. cbn. rewrite Hlead. reflexivity.
Qed.

(** Project 10001 returned without a lead. *)
Lemma Read_incomplete_project_panics_witness :
  outcome (jiraProjectResource.Read fixtures.url_Parse
             (fixtures.serving
                (fixtures.projectWith (models.AvatarUrls fixtures.project) None))
             {| resource.read_State := fixtures.decoded (fixtures.state "10001") |})
  = Panicked NilPointerDereference.
Proof.
  apply (Read_incomplete_project_panics fixtures.url_Parse
           (fixtures.serving
              (fixtures.projectWith (models.AvatarUrls fixtures.project) None))
           {| resource.read_State := fixtures.decoded (fixtures.state "10001") |}
           (fixtures.state "10001") []
           (fixtures.projectWith (models.AvatarUrls fixtures.project) None)
           fixtures.success eq_refl eq_refl eq_refl).
  right. split; [exists 10425|]; reflexivity.
Defined.

(** A string that is no number parses to zero. *)
Lemma Atoi_syntax_error (s : string) (n : Z) :
  strconv.Atoi s = (n, Some strconv.ErrSyntax) -> n = 0.
Proof.
  unfold strconv.Atoi, strconv.ParseInt.
  destruct s as [|c rest]; [now intros [= <-]|].
  destruct (strconv.ParseUint _) as [un [[|]|]];
    [now intros [= <-]| |];
    repeat match goal with
      | |- context [if ?b then _ else _] => destruct b
      end; intros [=]; congruence.
Qed.

(** X12. The read ignores the error of parsing the id of the state.  For
    an id that is no number (a project key, say) every lookup of
    associations the read issues is for project 0. *)
Theorem Read_non_numeric_id_looks_up_project_zero :
  forall (url_Parse : string -> option url.URL) (r : jira.Client)
         (req : resource.ReadRequest jiraProjectResourceModel.t)
         state diags n projectIDs startAt maxResults,
    tfsdk.Get (resource.read_State req) = (state, diags) ->
    strconv.Atoi (types.ValueString (jiraProjectResourceModel.ID state))
    = (n, Some strconv.ErrSyntax) ->
    In (jira.CallIssueTypeSchemeProjects projectIDs startAt maxResults)
       (calls (events (jiraProjectResource.Read url_Parse r req))) ->
    projectIDs = [0].
Proof.
  intros url_Parse r req state diags n projectIDs startAt maxResults
    Hstate Hatoi Hin.
  pose proof (Atoi_syntax_error _ _ Hatoi) as ->.
  destruct (Read_calls url_Parse r req) as [Hrun|[Hrun|Hrun]];
    rewrite Hrun in Hin; rewrite ?Hstate in Hin; cbn in Hin.
  - contradiction.
  - destruct Hin as [Hin|[]]. discriminate Hin.
  - destruct Hin as [Hin|[Hin|[]]]; [discriminate Hin|].
    rewrite Hatoi in Hin. now injection Hin as <- _ _.
Qed.

(** The read of a state whose id is the key [TES]. *)
Lemma Read_non_numeric_id_looks_up_project_zero_witness :
  In (jira.CallIssueTypeSchemeProjects [0] 0 1)
     (calls (events (jiraProjectResource.Read fixtures.url_Parse (fixtures.online [])
                       {| resource.read_State :=
                            fixtures.decoded (fixtures.state "TES") |})))
  /\ [0] = [0].
Proof.
  split; [right; left; reflexivity|].
  apply (Read_non_numeric_id_looks_up_project_zero fixtures.url_Parse
           (fixtures.online [])
           {| resource.read_State := fixtures.decoded (fixtures.state "TES") |}
           (fixtures.state "TES") [] 0 [0] 0 1 eq_refl eq_refl).
  right. left. reflexivity.
Defined.

(** ** Update, create and delete of a project *)

(** X13. An update is not undone when its second call fails.  After a
    successful project update, a failed assignment of the issue type
    scheme that comes with a response returns its diagnostic and stores
    no state, the project update having been made; without a response
    the update panics. *)
Theorem Update_assignment_failure :
  forall (url_Parse : string -> option url.URL) (r : jira.Client)
         (req : resource.UpdateRequest jiraProjectResourceModel.t)
         plan state planDiags stateDiags returnedProject res response err,
    tfsdk.Get (resource.update_Plan req) = (plan, planDiags) ->
    diag.HasError planDiags = false ->
    tfsdk.Get (resource.update_State req) = (state, stateDiags) ->
    diag.HasError stateDiags = false ->
    jira.Project_Update r (types.ValueString (jiraProjectResourceModel.ID state))
      (updatePayloadOf plan)
    = (Some returnedProject, res, None) ->
    jira.Issue_Type_Scheme_Assign r
      (types.Int64_String (jiraProjectResourceModel.IssueTypeScheme plan))
      (models.ID returnedProject)
    = (response, Some err) ->
    calls (events (jiraProjectResource.Update url_Parse r req))
    = [jira.CallProjectUpdate
         (types.ValueString (jiraProjectResourceModel.ID state))
         (updatePayloadOf plan);
       jira.CallIssueTypeSchemeAssign
         (types.Int64_String (jiraProjectResourceModel.IssueTypeScheme plan))
         (models.ID returnedProject)]
    /\ outcome (jiraProjectResource.Update url_Parse r req)
       = match response with
         | Some response =>
             Returned
               {| tfsdk.Diagnostics :=
                    diag.AddError
                      (diag.Append (diag.Append [] planDiags) stateDiags)
                      "Client Error"
                      ("Unable to assign issue type scheme to project, got error: "
                         ++ err ++ LF ++ models.Bytes response);
                  tfsdk.State := None |}
         | None => Panicked NilPointerDereference
         end.
Proof.
  intros url_Parse r req plan state planDiags stateDiags returnedProject res
    response err Hplan HplanDiags Hstate HstateDiags Hupdate Hassign.
  split.
  - rewrite (Update_calls url_Parse r req plan state planDiags stateDiags
               Hplan HplanDiags Hstate HstateDiags), Hupdate.
    reflexivity.
  - unfold jiraProjectResource.Update. rewrite Hplan. cbn.
    rewrite (HasError_decoded _ HplanDiags). cbn. rewrite Hstate. cbn.
    rewrite (Update_decoded planDiags stateDiags) by assumption. cbn.
    fold (updatePayloadOf plan). rewrite Hupdate. cbn. rewrite Hassign.
    destruct response; reflexivity.
Qed.

(** The update of project 10001 against a remote system that refuses
    the assignment. *)
Lemma Update_assignment_failure_witness :
  calls (events (jiraProjectResource.Update fixtures.url_Parse fixtures.refusing
                   {| resource.update_Plan := fixtures.decoded fixtures.plan;
                      resource.update_State :=
                        fixtures.decoded (fixtures.state "10001") |}))
  = [jira.CallProjectUpdate "10001" (updatePayloadOf fixtures.plan);
     jira.CallIssueTypeSchemeAssign "<null>" "10001"]
  /\ outcome (jiraProjectResource.Update fixtures.url_Parse fixtures.refusing
                {| resource.update_Plan := fixtures.decoded fixtures.plan;
                   resource.update_State :=
                     fixtures.decoded (fixtures.state "10001") |})
     = Returned
         {| tfsdk.Diagnostics :=
              [diag.NewErrorDiagnostic "Client Error"
                 ("Unable to assign issue type scheme to project, got error: "
                    ++ "request failed. Status code: 404" ++ LF ++ "not found")];
            tfsdk.State := None |}.
Proof.
  exact (Update_assignment_failure fixtures.url_Parse fixtures.refusing
           {| resource.update_Plan := fixtures.decoded fixtures.plan;
              resource.update_State := fixtures.decoded (fixtures.state "10001") |}
           fixtures.plan (fixtures.state "10001") [] []
           fixtures.project fixtures.success
           (Some {| models.Bytes := "not found" |})
           "request failed. Status code: 404"
           eq_refl eq_refl eq_refl eq_refl eq_refl eq_refl).
Defined.

(** X14. The payload of a call that reports no error is used unchecked:
    when the remote system returns no workflow scheme, no page of
    screens, no created project, no project or no updated project, the
    operation ends in the nil pointer panic, after that one call. *)
Theorem success_without_payload_panics :
  forall (url_Parse : string -> option url.URL) (j : jira.Client),
    (forall (req : datasource.ReadRequest jiraWorkflowSchemeDataSourceModel.t)
            newState diags n res,
        tfsdk.Get (datasource.Config req) = (newState, diags) ->
        diag.HasError diags = false ->
        strconv.Atoi
          (types.ValueString (jiraWorkflowSchemeDataSourceModel.ID newState))
        = (n, None) ->
        jira.Workflow_Scheme_Get j n false = (None, res, None) ->
        outcome (jiraWorkflowSchemeDataSource.Read j req)
        = Panicked NilPointerDereference)
    /\ (forall (req : datasource.ReadRequest jiraIssueScreenDataSourceModel.t)
               newState diags n res,
           tfsdk.Get (datasource.Config req) = (newState, diags) ->
           diag.HasError diags = false ->
           strconv.Atoi
             (types.ValueString (jiraIssueScreenDataSourceModel.ID newState))
           = (n, None) ->
           jira.Screen_Gets j {| models.IDs := [n] |} 0 50 = (None, res, None) ->
           outcome (jiraIssueScreenDataSource.Read j req)
           = Panicked NilPointerDereference)
    /\ (forall (req : resource.CreateRequest jiraProjectResourceModel.t)
               plan diags res,
           tfsdk.Get (resource.create_Plan req) = (plan, diags) ->
           diag.HasError diags = false ->
           jira.Project_Create j (createPayloadOf plan) = (None, res, None) ->
           outcome (jiraProjectResource.Create j req)
           = Panicked NilPointerDereference)
    /\ (forall (req : resource.ReadRequest jiraProjectResourceModel.t)
               state diags res,
           tfsdk.Get (resource.read_State req) = (state, diags) ->
           diag.HasError diags = false ->
           jira.Project_Get j
             (types.ValueString (jiraProjectResourceModel.ID state)) []
           = (None, res, None) ->
           outcome (jiraProjectResource.Read url_Parse j req)
           = Panicked NilPointerDereference)
    /\ (forall (req : resource.UpdateRequest jiraProjectResourceModel.t)
               plan planDiags state stateDiags res,
           tfsdk.Get (resource.update_Plan req) = (plan, planDiags) ->
           diag.HasError planDiags = false ->
           tfsdk.Get (resource.update_State req) = (state, stateDiags) ->
           diag.HasError stateDiags = false ->
           jira.Project_Update j
             (types.ValueString (jiraProjectResourceModel.ID state))
             (updatePayloadOf plan)
           = (None, res, None) ->
           outcome (jiraProjectResource.Update url_Parse j req)
           = Panicked NilPointerDereference).
Proof.
  intros url_Parse j. split; [|split; [|split; [|split]]].
  - intros req newState diags n res Hcfg Hdiags Hid Hcall.
    unfold jiraWorkflowSchemeDataSource.Read. rewrite Hcfg. cbn.
    rewrite (HasError_decoded _ Hdiags). cbn. rewrite Hid. cbn.
    rewrite Hcall. reflexivity.
  - intros req newState diags n res Hcfg Hdiags Hid Hcall.
    unfold jiraIssueScreenDataSource.Read. rewrite Hcfg. cbn.
    rewrite (HasError_decoded _ Hdiags). cbn. rewrite Hid. cbn.
    rewrite Hcall. reflexivity.
  - intros req plan diags res Hplan Hdiags Hcall.
    unfold jiraProjectResource.Create. rewrite Hplan. cbn.
    rewrite (HasError_decoded _ Hdiags). cbn.
    fold (createPayloadOf plan). rewrite Hcall. reflexivity.
  - intros req state diags res Hstate Hdiags Hcall.
    unfold jiraProjectResource.Read. rewrite Hstate. cbn.
    rewrite (HasError_decoded _ Hdiags). cbn. rewrite Hcall. reflexivity.
  - intros req plan planDiags state stateDiags res
      Hplan HplanDiags Hstate HstateDiags Hcall.
    unfold jiraProjectResource.Update. rewrite Hplan. cbn.
    rewrite (HasError_decoded _ HplanDiags). cbn. rewrite Hstate. cbn.
    rewrite (Update_decoded planDiags stateDiags) by assumption. cbn.
    fold (updatePayloadOf plan). rewrite Hcall. reflexivity.
Qed.

(** The five operations against a remote system that reports success
    and returns nothing. *)
Lemma success_without_payload_panics_witness :
  outcome (jiraWorkflowSchemeDataSource.Read fixtures.silent
             {| datasource.Config :=
                  fixtures.decoded (fixtures.workflowSchemeConfig "10012") |})
  = Panicked NilPointerDereference
  /\ outcome (jiraIssueScreenDataSource.Read fixtures.silent
                {| datasource.Config :=
                     fixtures.decoded (fixtures.issueScreenConfig "10000") |})
     = Panicked NilPointerDereference
  /\ outcome (jiraProjectResource.Create fixtures.silent
                {| resource.create_Plan := fixtures.decoded fixtures.plan |})
     = Panicked NilPointerDereference
  /\ outcome (jiraProjectResource.Read fixtures.url_Parse fixtures.silent
                {| resource.read_State :=
                     fixtures.decoded (fixtures.state "10001") |})
     = Panicked NilPointerDereference
  /\ outcome (jiraProjectResource.Update fixtures.url_Parse fixtures.silent
                {| resource.update_Plan := fixtures.decoded fixtures.plan;
                   resource.update_State :=
                     fixtures.decoded (fixtures.state "10001") |})
     = Panicked NilPointerDereference.
Proof.
  destruct (success_without_payload_panics fixtures.url_Parse fixtures.silent)
    as (Hworkflow & Hscreen & Hcreate & Hread & Hupdate).
  split; [eapply Hworkflow; reflexivity|].
  split; [eapply Hscreen; reflexivity|].
  split; [eapply Hcreate; reflexivity|].
  split; [eapply Hread; reflexivity|].
  eapply Hupdate; reflexivity.
Defined.

(** X15. A create makes one call, with the payload built from the plan,
    whatever the remote system answers.  When that call fails, with or
    without a response, the create returns one error diagnostic with the
    message of the error and the raw body (empty without a response),
    and stores no state. *)
Theorem Create_one_call :
  forall (r : jira.Client) (req : resource.CreateRequest jiraProjectResourceModel.t)
         plan diags,
    tfsdk.Get (resource.create_Plan req) = (plan, diags) ->
    diag.HasError diags = false ->
    calls (events (jiraProjectResource.Create r req))
    = [jira.CallProjectCreate (createPayloadOf plan)]
    /\ (forall returnedProject res err,
           jira.Project_Create r (createPayloadOf plan)
           = (returnedProject, res, Some err) ->
           outcome (jiraProjectResource.Create r req)
           = Returned
               {| tfsdk.Diagnostics :=
                    diag.AddError (diag.Append [] diags) "Client Error"
                      ("Unable to create project, got error: "
                         ++ err ++ LF ++ rawBody res);
                  tfsdk.State := None |}).
Proof.
  intros r req plan diags Hplan Hdiags. split.
  - unfold jiraProjectResource.Create. rewrite Hplan. cbn.
    rewrite (HasError_decoded _ Hdiags). cbn. fold (createPayloadOf plan).
    destruct (jira.Project_Create r (createPayloadOf plan))
      as [[[returnedProject|] res] [err|]]; reflexivity.
  - intros returnedProject res err Hcreate.
    exact (Create_error r req plan diags returnedProject res err
             Hplan Hdiags Hcreate).
Qed.

(** The create of the scenario against a remote system that refuses
    it. *)
Lemma Create_one_call_witness :
  calls (events (jiraProjectResource.Create fixtures.refusing
                   {| resource.create_Plan := fixtures.decoded fixtures.plan |}))
  = [jira.CallProjectCreate (createPayloadOf fixtures.plan)]
  /\ outcome (jiraProjectResource.Create fixtures.refusing
                {| resource.create_Plan := fixtures.decoded fixtures.plan |})
     = Returned
         {| tfsdk.Diagnostics :=
              [diag.NewErrorDiagnostic "Client Error"
                 ("Unable to create project, got error: "
                    ++ "request failed. Status code: 400" ++ LF ++ "key in use")];
            tfsdk.State := None |}.
Proof.
  destruct (Create_one_call fixtures.refusing
              {| resource.create_Plan := fixtures.decoded fixtures.plan |}
              fixtures.plan [] eq_refl eq_refl) as [Hcalls Hfailed].
  split; [exact Hcalls | exact (Hfailed _ _ _ eq_refl)].
Defined.

(** X16. A delete that fails with a response returns one error
    diagnostic with the message of the error and the raw body; the
    state is not touched, so that the resource stays managed. *)
Theorem Delete_failure_keeps_state :
  forall (r : jira.Client) (req : resource.DeleteRequest jiraProjectResourceModel.t)
         state diags res err,
    tfsdk.Get (resource.delete_State req) = (state, diags) ->
    diag.HasError diags = false ->
    jira.Project_Delete r (types.ValueString (jiraProjectResourceModel.ID state)) false
    = (Some res, Some err) ->
    exists resp,
      outcome (jiraProjectResource.Delete r req) = Returned resp
      /\ tfsdk.State resp = None
      /\ diag.HasError (tfsdk.Diagnostics resp) = true
      /\ In (diag.NewErrorDiagnostic "Client Error"
               ("Unable to delete project, got error: "
                  ++ err ++ LF ++ models.Bytes res))
            (tfsdk.Diagnostics resp).
Proof.
  intros r req state diags res err Hstate Hdiags Hdelete.
  eexists. split.
  - exact (Delete_error_with_response r req state diags res err
             Hstate Hdiags Hdelete).
  - cbn. repeat split.
    + unfold diag.AddError. rewrite HasError_Append. apply orb_true_r.
    + apply In_Append_one.
Qed.

(** The delete of project 10001 against a remote system that refuses
    it. *)
Lemma Delete_failure_keeps_state_witness :
  exists resp,
    outcome (jiraProjectResource.Delete fixtures.refusing
               {| resource.delete_State :=
                    fixtures.decoded (fixtures.state "10001") |})
    = Returned resp
    /\ tfsdk.State resp = None
    /\ diag.HasError (tfsdk.Diagnostics resp) = true
    /\ In (diag.NewErrorDiagnostic "Client Error"
             ("Unable to delete project, got error: "
                ++ "request failed. Status code: 404" ++ LF
                ++ models.Bytes {| models.Bytes := "not found" |}))
          (tfsdk.Diagnostics resp).
Proof.
  exact (Delete_failure_keeps_state fixtures.refusing
           {| resource.delete_State := fixtures.decoded (fixtures.state "10001") |}
           (fixtures.state "10001") []
           {| models.Bytes := "not found" |} "request failed. Status code: 404"
           eq_refl eq_refl eq_refl).
Defined.

(** ** The id of a project, written and read back *)

Lemma uintValue_of_uint_acc (d : Decimal.uint) :
  forall acc : positive,
    Z.pos (Pos.of_uint_acc d acc) = uintValue d (Z.pos acc).
Proof.
  induction d; intros acc; cbn [Pos.of_uint_acc uintValue];
    [reflexivity | rewrite IHd; f_equal; lia ..].
Qed.

Lemma uintValue_of_uint (d : Decimal.uint) :
  Z.of_N (Pos.of_uint d) = uintValue d 0.
Proof.
  induction d; cbn [Pos.of_uint uintValue Z.of_N];
    [reflexivity | exact IHd | rewrite uintValue_of_uint_acc; reflexivity ..].
Qed.

Lemma uintValue_to_uint (p : positive) : uintValue (Pos.to_uint p) 0 = Z.pos p.
Proof.
  rewrite <- uintValue_of_uint, DecimalPos.Unsigned.of_to. reflexivity.
Qed.

Lemma uintValue_ge (d : Decimal.uint) :
  forall acc, 0 <= acc -> acc <= uintValue d acc.
Proof.
  induction d; intros acc Hacc; cbn [uintValue]; [lia|..];
    match goal with
    | |- _ <= uintValue _ ?a => specialize (IHd a); lia
    end.
Qed.

(** The digit loop reads back what the digits denote, as long as that
    fits 64 bits. *)
Lemma parseDigits_uint (d : Decimal.uint) :
  forall n,
    0 <= n ->
    uintValue d n <= strconv.maxUint64 ->
    strconv.parseDigits (NilEmpty.string_of_uint d) n = (uintValue d n, None).
Proof.
  unfold strconv.maxUint64.
  induction d; intros n Hn Hmax;
    cbn [NilEmpty.string_of_uint strconv.parseDigits uintValue] in *;
    [reflexivity|..];
    match goal with
    | H : uintValue _ ?a <= _ |- _ =>
        pose proof (uintValue_ge d a ltac:(lia)) as Hge
    end;
    change (strconv.isDigit _) with true; cbn [negb];
    change (strconv.maxUint64 / 10 + 1) with 1844674407370955162;
    unfold strconv.maxUint64;
    change (2 ^ 64 - 1) with 18446744073709551615 in *;
    (destruct (Z.leb_spec 1844674407370955162 n); [lia|]);
    match goal with
    | |- context [strconv.digitVal ?c] =>
        let v := eval vm_compute in (strconv.digitVal c) in
        change (strconv.digitVal c) with v
    end;
    match goal with
    | |- context [18446744073709551615 <? ?a] =>
        destruct (Z.ltb_spec 18446744073709551615 a); [lia|]
    end;
    apply IHd; lia.
Qed.

(** The decimal rendering of a positive number starts with a digit and
    parses back to the number. *)
Lemma ParseUint_to_uint (p : positive) :
  Z.pos p <= strconv.maxUint64 ->
  exists c rest,
    NilZero.string_of_uint (Pos.to_uint p) = String c rest
    /\ Ascii.eqb c "+" = false
    /\ Ascii.eqb c "-" = false
    /\ strconv.ParseUint (String c rest) = (Z.pos p, None).
Proof.
  intros Hmax.
  pose proof (Unsigned.to_uint_nonnil p) as Hnonnil.
  pose proof (uintValue_to_uint p) as Hvalue.
  assert (forall d, d <> Decimal.Nil ->
                    NilZero.string_of_uint d = NilEmpty.string_of_uint d) as Hsame
    by (intros [| | | | | | | | | |]; intros; [contradiction | reflexivity ..]).
  rewrite (Hsame _ Hnonnil).
  assert (strconv.parseDigits (NilEmpty.string_of_uint (Pos.to_uint p)) 0
          = (Z.pos p, None)) as Hparse
    by (rewrite parseDigits_uint, Hvalue; [reflexivity | lia | lia]).
  destruct (Pos.to_uint p); [contradiction|..];
    cbn [NilEmpty.string_of_uint] in *;
    eexists _, _; (split; [reflexivity|]);
    (split; [reflexivity|]); (split; [reflexivity|]); exact Hparse.
Qed.

(** Writing a number of the range of [int] in decimal and parsing it
    gives the number back, without error. *)
Lemma Atoi_Itoa (i : Z) :
  - 2 ^ 63 <= i < 2 ^ 63 -> strconv.Atoi (strconv.Itoa i) = (i, None).
Proof.
  intros Hrange. unfold strconv.Atoi, strconv.Itoa.
  destruct i as [|p|p]; [reflexivity| |].
  - cbn [Z.to_int NilZero.string_of_int].
    destruct (ParseUint_to_uint p) as (c & rest & -> & Hplus & Hminus & Hparse);
      [unfold strconv.maxUint64; lia|].
    unfold strconv.ParseInt. rewrite Hplus, Hminus. cbn [orb negb andb].
    rewrite Hparse. unfold strconv.IntSize.
    change (2 ^ (64 - 1)) with (2 ^ 63).
    destruct (Z.leb_spec (2 ^ 63) (Z.pos p)); [lia|reflexivity].
  - cbn [Z.to_int NilZero.string_of_int].
    destruct (ParseUint_to_uint p) as (c & rest & -> & Hplus & Hminus & Hparse);
      [unfold strconv.maxUint64; lia|].
    unfold strconv.ParseInt.
    change (Ascii.eqb "-" "-") with true. change (Ascii.eqb "-" "+") with false.
    cbn [orb negb andb]. rewrite Hparse. unfold strconv.IntSize.
    change (2 ^ (64 - 1)) with (2 ^ 63).
    destruct (Z.ltb_spec (2 ^ 63) (Z.pos p)); [lia|reflexivity].
Qed.

(** A create that succeeds has stored the plan under the decimal
    rendering of the id of the created project. *)
Lemma Create_success_inv :
  forall (r : jira.Client) (req : resource.CreateRequest jiraProjectResourceModel.t)
         plan diags resp stored,
    tfsdk.Get (resource.create_Plan req) = (plan, diags) ->
    outcome (jiraProjectResource.Create r req) = Returned resp ->
    tfsdk.State resp = Some stored ->
    exists returnedProject res,
      jira.Project_Create r (createPayloadOf plan) = (Some returnedProject, res, None)
      /\ stored
         = jiraProjectResourceModel.set_ID
             (types.StringValue (strconv.Itoa (models.created_ID returnedProject)))
             plan.
Proof.
  intros r req plan diags resp stored Hplan.
  unfold jiraProjectResource.Create. rewrite Hplan. cbn.
  destruct (diag.HasError (diag.Append [] diags)); [no_stored_state|].
  cbn. fold (createPayloadOf plan).
  destruct (jira.Project_Create r (createPayloadOf plan))
    as [[[returnedProject|] res] [err|]] eqn:Hcreate; try no_stored_state.
  cbn. intros [= <-]. cbn. intros [= <-].
  exists returnedProject, res. split; reflexivity.
Qed.

(** The first call of a read whose state decodes is the lookup of the
    project of the id of the state. *)
Lemma Read_first_call :
  forall (url_Parse : string -> option url.URL) (r : jira.Client)
         (req : resource.ReadRequest jiraProjectResourceModel.t) state diags,
    tfsdk.Get (resource.read_State req) = (state, diags) ->
    diag.HasError diags = false ->
    exists rest,
      calls (events (jiraProjectResource.Read url_Parse r req))
      = jira.CallProjectGet
          (types.ValueString (jiraProjectResourceModel.ID state)) [] :: rest.
Proof.
  intros url_Parse r req state diags Hstate Hdiags.
  destruct (Read_calls url_Parse r req) as [Hrun|[Hrun|Hrun]];
    rewrite ?Hstate in Hrun; cbn [fst] in Hrun;
    [|rewrite Hrun; eexists; reflexivity ..].
  exfalso. revert Hrun.
  unfold jiraProjectResource.Read. rewrite Hstate. cbn.
  rewrite (HasError_decoded _ Hdiags). cbn.
  destruct (jira.Project_Get r _ _) as [[project res] err].
  destruct (match err with Some _ => _ | None => _ end) as [evs out].
  cbn. discriminate.
Qed.

(** X17. The id a create stores is read back by the read that follows.
    When a create has stored a state and the id the remote system
    assigned is in the range of [int], a read of that state looks the
    project up under the decimal rendering of that id, and every lookup
    of associations it issues is for exactly that id. *)
Theorem Create_then_Read_uses_assigned_id :
  forall (url_Parse : string -> option url.URL) (r r' : jira.Client)
         (req : resource.CreateRequest jiraProjectResourceModel.t)
         (req' : resource.ReadRequest jiraProjectResourceModel.t)
         plan diags resp stored diags' returnedProject res,
    tfsdk.Get (resource.create_Plan req) = (plan, diags) ->
    outcome (jiraProjectResource.Create r req) = Returned resp ->
    tfsdk.State resp = Some stored ->
    jira.Project_Create r (createPayloadOf plan) = (Some returnedProject, res, None) ->
    - 2 ^ 63 <= models.created_ID returnedProject < 2 ^ 63 ->
    tfsdk.Get (resource.read_State req') = (stored, diags') ->
    diag.HasError diags' = false ->
    (exists rest,
        calls (events (jiraProjectResource.Read url_Parse r' req'))
        = jira.CallProjectGet
            (strconv.Itoa (models.created_ID returnedProject)) [] :: rest)
    /\ (forall projectIDs startAt maxResults,
           In (jira.CallIssueTypeSchemeProjects projectIDs startAt maxResults)
              (calls (events (jiraProjectResource.Read url_Parse r' req'))) ->
           projectIDs = [models.created_ID returnedProject]).
Proof.
  intros url_Parse r r' req req' plan diags resp stored diags' returnedProject res
    Hplan Hout Hstored Hcreate Hrange Hstate Hdiags'.
  destruct (Create_success_inv r req plan diags resp stored Hplan Hout Hstored)
    as (returnedProject' & res' & Hcreate' & ->).
  rewrite Hcreate in Hcreate'. injection Hcreate' as <- <-.
  split.
  - exact (Read_first_call url_Parse r' req' _ diags' Hstate Hdiags').
  - intros projectIDs startAt maxResults Hin.
    destruct (Read_calls url_Parse r' req') as [Hrun|[Hrun|Hrun]];
      rewrite Hrun in Hin; rewrite ?Hstate in Hin; cbn in Hin.
    + contradiction.
    + destruct Hin as [Hin|[]]. discriminate Hin.
    + destruct Hin as [Hin|[Hin|[]]]; [discriminate Hin|].
      rewrite (Atoi_Itoa _ Hrange) in Hin. now injection Hin as <- _ _.
Qed.

(** The create of the scenario, which is assigned the id 10001, and the
    read of the state it stored. *)
Lemma Create_then_Read_uses_assigned_id_witness :
  (exists rest,
      calls (events (jiraProjectResource.Read fixtures.url_Parse (fixtures.online [])
                       {| resource.read_State :=
                            fixtures.decoded
                              (jiraProjectResourceModel.set_ID
                                 (types.StringValue "10001") fixtures.plan) |}))
      = jira.CallProjectGet (strconv.Itoa 10001) [] :: rest)
  /\ (forall projectIDs startAt maxResults,
         In (jira.CallIssueTypeSchemeProjects projectIDs startAt maxResults)
            (calls (events (jiraProjectResource.Read fixtures.url_Parse
                              (fixtures.online [])
                              {| resource.read_State :=
                                   fixtures.decoded
                                     (jiraProjectResourceModel.set_ID
                                        (types.StringValue "10001")
                                        fixtures.plan) |}))) ->
         projectIDs = [10001]).
Proof.
  apply (Create_then_Read_uses_assigned_id fixtures.url_Parse
           (fixtures.online []) (fixtures.online [])
           {| resource.create_Plan := fixtures.decoded fixtures.plan |}
           {| resource.read_State :=
                fixtures.decoded
                  (jiraProjectResourceModel.set_ID (types.StringValue "10001")
                     fixtures.plan) |}
           fixtures.plan []
           {| tfsdk.Diagnostics := [];
              tfsdk.State :=
                Some (jiraProjectResourceModel.set_ID (types.StringValue "10001")
                        fixtures.plan) |}
           (jiraProjectResourceModel.set_ID (types.StringValue "10001")
              fixtures.plan)
           [] {| models.created_ID := 10001 |} fixtures.success);
    try reflexivity.
  split; [discriminate | reflexivity].
Defined.

(** ** Type names, schemas and import *)

Lemma append_inv_head (p a b : string) : (p ++ a = p ++ b)%string -> a = b.
Proof.
  induction p as [|c p IH]; cbn [String.append]; [trivial|].
  intros [= H]. exact (IH H).
Qed.

(** X18. Whatever the type name of the provider, the four handlers
    register under four different type names. *)
Theorem type_names_distinct :
  forall ProviderTypeName : string,
    NoDup [jiraStatusDataSource.Metadata ProviderTypeName;
           jiraProjectResource.Metadata ProviderTypeName;
           jiraIssueScreenDataSource.Metadata ProviderTypeName;
           jiraWorkflowSchemeDataSource.Metadata ProviderTypeName].
Proof.
  intros p.
  unfold jiraStatusDataSource.Metadata, jiraProjectResource.Metadata,
    jiraIssueScreenDataSource.Metadata, jiraWorkflowSchemeDataSource.Metadata.
  repeat constructor; cbn [In];
    intros H; repeat destruct H as [H|H]; try contradiction;
    apply append_inv_head in H; discriminate H.
Qed.

(** X19. Each schema declares exactly the attributes its record has
    fields for, under the names of the [tfsdk] tags and with the types
    of the fields, each name once; and every attribute is required,
    optional or computed, none both required and optional or computed.
    So the records of the handlers can be decoded from and stored to
    data of their schemas. *)
Theorem schemas_match_records :
  (schema.signature jiraStatusDataSource.Schema = jiraStatusDataSourceModel.tags
   /\ schema.signature jiraWorkflowSchemeDataSource.Schema
      = jiraWorkflowSchemeDataSourceModel.tags
   /\ schema.signature jiraIssueScreenDataSource.Schema
      = jiraIssueScreenDataSourceModel.tags
   /\ schema.signature jiraProjectResource.Schema = jiraProjectResourceModel.tags)
  /\ (forall s,
         In s [jiraStatusDataSource.Schema; jiraWorkflowSchemeDataSource.Schema;
               jiraIssueScreenDataSource.Schema; jiraProjectResource.Schema] ->
         NoDup (map fst (schema.Attributes s))
         /\ forall name a,
             In (name, a) (schema.Attributes s) -> schema.wellFormed a = true).
Proof.
  split; [repeat split|].
  intros s Hin. cbn [In] in Hin.
  repeat destruct Hin as [<-|Hin]; try contradiction.
  all: split;
    [ cbn; repeat constructor; cbn [In];
      intros H; repeat destruct H as [H|H]; try contradiction; discriminate H
    | intros name a Ha; cbn in Ha;
      repeat destruct Ha as [[= <- <-]|Ha]; try contradiction; reflexivity ].
Qed.

(** A read that succeeds leaves three scheme fields as they were. *)
Lemma Read_keeps_scheme_fields :
  forall (url_Parse : string -> option url.URL) (r : jira.Client)
         (req : resource.ReadRequest jiraProjectResourceModel.t)
         state diags resp stored,
    tfsdk.Get (resource.read_State req) = (state, diags) ->
    outcome (jiraProjectResource.Read url_Parse r req) = Returned resp ->
    tfsdk.State resp = Some stored ->
    jiraProjectResourceModel.FieldConfigurationScheme stored
    = jiraProjectResourceModel.FieldConfigurationScheme state
    /\ jiraProjectResourceModel.IssueTypeScreenScheme stored
       = jiraProjectResourceModel.IssueTypeScreenScheme state
    /\ jiraProjectResourceModel.WorkflowScheme stored
       = jiraProjectResourceModel.WorkflowScheme state.
Proof.
  intros url_Parse r req state diags resp stored Hstate Hout Hstored.
  destruct (Read_success_inv url_Parse r req state diags Hstate resp stored
              Hout Hstored)
    as (project & res & lead & avatarID & page & res' & evs
        & _ & _ & _ & _ & _ & _ & Hrange).
  destruct (rangeValues_shape (models.Values page)
              (fst (strconv.Atoi
                      (types.ValueString (jiraProjectResourceModel.ID state)))))
    as (evs' & [(p & Hpanic)|[Hsame|(a & sch & _ & _ & _ & Hset)]]).
  - rewrite Hpanic in Hrange. discriminate Hrange.
  - rewrite Hsame in Hrange. injection Hrange as _ <-. repeat split.
  - rewrite Hset in Hrange. injection Hrange as _ <-. repeat split.
Qed.

(** X20. A project that was imported shows no scheme of its own.  The
    read that follows an import looks the project up under the id of
    the import request; when it succeeds, the field configuration
    scheme, the issue type screen scheme and the workflow scheme of the
    stored state are null. *)
Theorem Import_then_Read :
  forall (url_Parse : string -> option url.URL) (r : jira.Client)
         (req_ID : string)
         (req : resource.ReadRequest jiraProjectResourceModel.t)
         imported diags resp stored,
    tfsdk.State (jiraProjectResource.ImportState req_ID) = Some imported ->
    tfsdk.Get (resource.read_State req) = (imported, diags) ->
    outcome (jiraProjectResource.Read url_Parse r req) = Returned resp ->
    tfsdk.State resp = Some stored ->
    (exists rest,
        calls (events (jiraProjectResource.Read url_Parse r req))
        = jira.CallProjectGet req_ID [] :: rest)
    /\ jiraProjectResourceModel.FieldConfigurationScheme stored = types.Int64Null
    /\ jiraProjectResourceModel.IssueTypeScreenScheme stored = types.Int64Null
    /\ jiraProjectResourceModel.WorkflowScheme stored = types.Int64Null.
Proof.
  intros url_Parse r req_ID req imported diags resp stored
    Himport Hstate Hout Hstored.
  injection Himport as <-.
  destruct (Read_success_inv url_Parse r req _ diags Hstate resp stored
              Hout Hstored) as (_ & _ & _ & _ & _ & _ & _ & Hdiags & _).
  split.
  - exact (Read_first_call url_Parse r req _ diags Hstate Hdiags).
  - exact (Read_keeps_scheme_fields url_Parse r req _ diags resp stored
             Hstate Hout Hstored).
Qed.

(** The import of project 10001 and the read that follows. *)
Lemma Import_then_Read_witness :
  (exists rest,
      calls (events
               (jiraProjectResource.Read fixtures.url_Parse (fixtures.online [])
                  {| resource.read_State :=
                       fixtures.decoded (fixtures.imported "10001") |}))
      = jira.CallProjectGet "10001" [] :: rest)
  /\ jiraProjectResourceModel.FieldConfigurationScheme
       (readBase fixtures.project 10425
          {| models.AccountID := "5b10a2844c20165700ede21g" |}
          (fixtures.imported "10001"))
     = types.Int64Null
  /\ jiraProjectResourceModel.IssueTypeScreenScheme
       (readBase fixtures.project 10425
          {| models.AccountID := "5b10a2844c20165700ede21g" |}
          (fixtures.imported "10001"))
     = types.Int64Null
  /\ jiraProjectResourceModel.WorkflowScheme
       (readBase fixtures.project 10425
          {| models.AccountID := "5b10a2844c20165700ede21g" |}
          (fixtures.imported "10001"))
     = types.Int64Null.
Proof.
  exact (Import_then_Read fixtures.url_Parse (fixtures.online []) "10001"
           {| resource.read_State := fixtures.decoded (fixtures.imported "10001") |}
           (fixtures.imported "10001") []
           {| tfsdk.Diagnostics := [];
              tfsdk.State :=
                Some (readBase fixtures.project 10425
                        {| models.AccountID := "5b10a2844c20165700ede21g" |}
                        (fixtures.imported "10001")) |}
           (readBase fixtures.project 10425
              {| models.AccountID := "5b10a2844c20165700ede21g" |}
              (fixtures.imported "10001"))
           eq_refl eq_refl eq_refl eq_refl).
Defined.

(** The schema of the project: the names of its attributes are
    distinct, and its attribute [id], computed only, is well formed. *)
Lemma schemas_match_records_witness :
  NoDup (map fst (schema.Attributes jiraProjectResource.Schema))
  /\ schema.wellFormed
       {| schema.type := schema.StringAttribute;
          schema.MarkdownDescription := "The ID of the project.";
          schema.Required := false; schema.Optional := false;
          schema.Computed := true;
          schema.PlanModifiers := [schema.UseStateForUnknown];
          schema.Validators := [] |}
     = true.
Proof.
  destruct schemas_match_records as [_ Hschemas].
  destruct (Hschemas jiraProjectResource.Schema) as [Hnames Hformed].
  - right. right. right. left. reflexivity.
  - split; [exact Hnames|].
    apply (Hformed "id"). left. reflexivity.
Defined.

(** X21. An update acts on six fields of the plan, on its issue type
    scheme and on the id of the prior state, and on nothing else: two
    updates whose plans agree on key, name, description, avatar id,
    project type key, url and issue type scheme, and whose states have
    the same id, run alike against the same remote system, whatever the
    other fields of the plans (the other schemes, the lead) and of the
    states are. *)
Theorem Update_depends_on_sent_fields :
  forall (url_Parse : string -> option url.URL) (r : jira.Client)
         (req req' : resource.UpdateRequest jiraProjectResourceModel.t)
         plan plan' state state' planDiags stateDiags,
    tfsdk.Get (resource.update_Plan req) = (plan, planDiags) ->
    tfsdk.Get (resource.update_State req) = (state, stateDiags) ->
    tfsdk.Get (resource.update_Plan req') = (plan', planDiags) ->
    tfsdk.Get (resource.update_State req') = (state', stateDiags) ->
    jiraProjectResourceModel.ID state = jiraProjectResourceModel.ID state' ->
    jiraProjectResourceModel.Key plan = jiraProjectResourceModel.Key plan' ->
    jiraProjectResourceModel.Name plan = jiraProjectResourceModel.Name plan' ->
    jiraProjectResourceModel.Description plan
    = jiraProjectResourceModel.Description plan' ->
    jiraProjectResourceModel.AvatarId plan
    = jiraProjectResourceModel.AvatarId plan' ->
    jiraProjectResourceModel.ProjectTypeKey plan
    = jiraProjectResourceModel.ProjectTypeKey plan' ->
    jiraProjectResourceModel.URL plan = jiraProjectResourceModel.URL plan' ->
    jiraProjectResourceModel.IssueTypeScheme plan
    = jiraProjectResourceModel.IssueTypeScheme plan' ->
    jiraProjectResource.Update url_Parse r req
    = jiraProjectResource.Update url_Parse r req'.
Proof.
  intros url_Parse r req req' plan plan' state state' planDiags stateDiags
    Hplan Hstate Hplan' Hstate' Hid Hkey Hname Hdescription Havatar Htype Hurl
    Hscheme.
  unfold jiraProjectResource.Update.
  rewrite Hplan, Hplan'. cbn. rewrite Hstate, Hstate'. cbn.
  rewrite Hid, Hkey, Hname, Hdescription, Havatar, Htype, Hurl, Hscheme.
  reflexivity.
Qed.

(** Two updates of project 10001 whose plans differ in the workflow
    scheme and whose prior states differ in the issue type scheme. *)
Lemma Update_depends_on_sent_fields_witness :
  jiraProjectResource.Update fixtures.url_Parse (fixtures.online [])
    {| resource.update_Plan := fixtures.decoded fixtures.plan;
       resource.update_State := fixtures.decoded (fixtures.state "10001") |}
  = jiraProjectResource.Update fixtures.url_Parse (fixtures.online [])
      {| resource.update_Plan :=
           fixtures.decoded
             (jiraProjectResourceModel.set_LeadAccountId
                (types.StringValue "5b10a2844c20165700ede21g") fixtures.plan);
         resource.update_State :=
           fixtures.decoded
             (jiraProjectResourceModel.set_IssueTypeScheme types.Int64Null
                (fixtures.state "10001")) |}.
Proof.
  exact (Update_depends_on_sent_fields fixtures.url_Parse (fixtures.online [])
           {| resource.update_Plan := fixtures.decoded fixtures.plan;
              resource.update_State := fixtures.decoded (fixtures.state "10001") |}
           {| resource.update_Plan :=
                fixtures.decoded
                  (jiraProjectResourceModel.set_LeadAccountId
                     (types.StringValue "5b10a2844c20165700ede21g") fixtures.plan);
              resource.update_State :=
                fixtures.decoded
                  (jiraProjectResourceModel.set_IssueTypeScheme types.Int64Null
                     (fixtures.state "10001")) |}
           fixtures.plan
           (jiraProjectResourceModel.set_LeadAccountId
              (types.StringValue "5b10a2844c20165700ede21g") fixtures.plan)
           (fixtures.state "10001")
           (jiraProjectResourceModel.set_IssueTypeScheme types.Int64Null
              (fixtures.state "10001"))
           [] []
           eq_refl eq_refl eq_refl eq_refl eq_refl eq_refl eq_refl eq_refl
           eq_refl eq_refl eq_refl eq_refl).
Defined.
